(** * Fast-PV-RCNN: the forward data flow of [pvrcnn/model.py]

    A shallow embedding of the two classes of [pvrcnn/model.py],
    [BEV_FeatureGatherer] and [PV_RCNN], and the properties of their
    index arithmetic and tensor shaping.

    Conventions.
    - A tensor is a nested list, outermost axis first; [tensor3] is a
      three-axis tensor, and so on.  Shapes are read off with [length].
    - Tensor elements are rationals.  The 32-bit floats of the source are
      idealised: rounding is not modelled, and a division whose divisor is
      zero (inf or nan in the source) lies outside the model, so every
      statement that depends on a quotient assumes its divisor non-zero.
    - Python exceptions are the [Err] results of the [result] monad. *)

From Stdlib Require Import QArith Qminmax Qround ZArith List Lia Lqa Bool.
Import ListNotations.

(** ** Errors *)

Inductive error : Type :=
| IndexError      (* a subscript outside the axis *)
| RuntimeError    (* a shape torch refuses *)
| ValueError      (* a shape numpy refuses *)
| InsufficientDataError.   (* fewer points than keypoints asked for *)

Inductive result (A : Type) : Type :=
| Ok  (a : A)
| Err (e : error).

Arguments Ok {A} a.
Arguments Err {A} e.

Definition bind {A B : Type} (r : result A) (k : A -> result B) : result B :=
  match r with
  | Ok a => k a
  | Err e => Err e
  end.

Declare Scope result_scope.
Delimit Scope result_scope with result.
Notation "x <- r ;; k" := (bind r (fun x => k))
  (at level 61, r at next level, right associativity) : result_scope.
Notation "' p <- r ;; k" := (bind r (fun p => k))
  (at level 61, p pattern, r at next level, right associativity) : result_scope.

(** ** Tensors *)

Definition tensor1 := list Q.
Definition tensor2 := list tensor1.
Definition tensor3 := list tensor2.
Definition tensor4 := list tensor3.
Definition tensor5 := list tensor4.

Module Torch.

(** [t.unsqueeze(0)]: a new leading axis of size one. *)
Definition unsqueeze0 {A : Type} (t : A) : list A := [t].

(** [t.squeeze(0)] on a tensor whose leading axis has size one, which is
    the only way the source calls it (unit batch). *)
Definition squeeze0 {A : Type} (t : list (list A)) : list A := hd [] t.

(** [t[..., :n]] on the last axis of a matrix. *)
Definition take_cols (n : nat) (t : tensor2) : tensor2 := map (firstn n) t.

(** [t.t()]: the transpose of a matrix given as a list of rows, as the
    list of its [ncols] columns. *)
Definition column (j : nat) (t : tensor2) : tensor1 :=
  map (fun row => nth j row 0%Q) t.

Definition transpose (t : tensor2) : tensor2 :=
  map (fun j => column j t) (seq 0 (length (hd [] t))).

(** Pointwise operation of the rows of the last axis against one vector
    (torch broadcasting of a vector over the leading axes). *)
Fixpoint zip_with {A B C : Type} (f : A -> B -> C)
         (xs : list A) (ys : list B) : list C :=
  match xs, ys with
  | x :: xs', y :: ys' => f x y :: zip_with f xs' ys'
  | _, _ => []
  end.

Definition broadcast4 (f : Q -> Q -> Q) (t : tensor4) (v : tensor1) : tensor4 :=
  map (map (map (fun row => zip_with f row v))) t.

Definition map4 (f : Q -> Q) (t : tensor4) : tensor4 :=
  map (map (map (map f))) t.

(** [torch.clamp(t, lo)]: the lower bound only. *)
Definition clamp_min (lo : Q) (t : tensor4) : tensor4 := map4 (Qmax lo) t.

(** [torch.min(t, v)] with [v] broadcast over the last axis. *)
Definition min_bcast (t : tensor4) (v : tensor1) : tensor4 :=
  broadcast4 Qmin t v.

(** [torch.cat(ts, dim=1)] for tensors of three axes: for each batch
    entry the rows of axis 1 of all the tensors, in the order of [ts].
    The batch size is that of the first tensor. *)
Definition cat_dim1 (ts : list tensor3) : tensor3 :=
  map (fun b => concat (map (fun t => nth b t []) ts))
      (seq 0 (length (hd [] ts))).

(** [torch.split(t, [3, 1], dim=-1)] on a matrix: the last axis must have
    exactly four entries. *)
Definition split_3_1 (t : tensor2) : result (tensor2 * tensor2) :=
  if forallb (fun row => Nat.eqb (length row) 4) t
  then Ok (map (firstn 3) t, map (skipn 3) t)
  else Err RuntimeError.

(** [volume.view(N, C * D, H, W)] on a dense (N, C, D, H, W) volume:
    the channel and depth axes are merged, channel-major. *)
Definition view_merge_CD (volume : tensor5) : tensor4 :=
  map (fun batch => concat batch) volume.

(** [F.grid_sample(input, grid)]: [input] has axes (N, C, H, W) and [grid]
    axes (N, Ho, Wo, 2); every channel image is read at every grid
    location by the interpolation kernel [interp], which receives the
    image and the normalised (x, y) pair.  The batch sizes must agree. *)
Definition grid_sample (interp : tensor2 -> Q -> Q -> Q)
           (input grid : tensor4) : result tensor4 :=
  if Nat.eqb (length input) (length grid)
  then Ok (zip_with
             (fun images locations =>
                map (fun image =>
                       map (map (fun xy =>
                                   interp image (nth 0 xy 0%Q) (nth 1 xy 0%Q)))
                           locations)
                    images)
             input grid)
  else Err RuntimeError.

(** [t.squeeze(2)] on a tensor whose axis 2 has size one. *)
Definition squeeze2 (t : tensor4) : tensor3 := map (map (hd [])) t.

(** [c * t] on a matrix. *)
Definition scale (c : Q) (t : tensor2) : tensor2 := map (map (Qmult c)) t.

(** What [torch.rand((rows, cols))] promises of its result: the shape
    asked for and entries in [0, 1). *)
Definition is_unit_sample (rows cols : nat) (u : tensor2) : bool :=
  Nat.eqb (length u) rows
  && forallb (fun row =>
                Nat.eqb (length row) cols
                && forallb (fun x => Qle_bool 0 x && negb (Qle_bool 1 x)) row)
             u.

End Torch.

(** ** Configuration: the fields of [PvrcnnConfig] that [model.py] reads *)

Record PvrcnnConfig : Type := {
  voxel_size     : list Q;
  grid_bounds    : list Q;
  max_voxels     : nat;
  max_num_points : nat;
  strides        : list Q;
  n_keypoints    : nat;
  radii          : list (list Q);
  nsamples       : list (list nat);
  mlps           : list (list (list nat))   (* per scale, per radius *)
}.

(** ** class BEV_FeatureGatherer *)

Module BEV_FeatureGatherer.
Import Torch.
Local Open Scope Q_scope.
Local Open Scope result_scope.

Record t : Type := {
  cfg : PvrcnnConfig;
  voxel_offset : tensor1;
  base_voxel_size : tensor1
}.

(** [torch.cuda.FloatTensor([H - 1, W - 1])] *)
Definition image_dims (H W : nat) : tensor1 :=
  [inject_Z (Z.of_nat H - 1); inject_Z (Z.of_nat W - 1)].

(** Line 27: [torch.min(torch.clamp(indices, 0), image_dims)]. *)
Definition clamp_indices (indices : tensor4) (H W : nat) : tensor4 :=
  min_bcast (clamp_min 0 indices) (image_dims H W).

(** Lines 24-29. *)
Definition normalize_grid_sample_indices
           (indices : tensor4) (H W : nat) : tensor4 :=
  let image_dims := image_dims H W in
  let indices := min_bcast (clamp_min 0 indices) image_dims in
  let indices :=
    map4 (fun x => 2 * x - 1)
         (broadcast4 Qdiv indices (map (fun d => d - 1) image_dims)) in
  indices.

(** [cfg.strides[-1]] *)
Definition last_stride (c : PvrcnnConfig) : result Q :=
  match rev (strides c) with
  | s :: _ => Ok s
  | [] => Err IndexError
  end.

(** Lines 33-34: the fractional indices before normalisation.
    [keypoint_xyz[:, None, :, :2]] puts an axis of size one after the
    batch axis and keeps the first two coordinates. *)
Definition fractional_bev_indices (self : t) (keypoint_xyz : tensor3)
  : result tensor4 :=
  let indices :=
    broadcast4 Qminus
      (map (fun batch => [take_cols 2 batch]) keypoint_xyz)
      (firstn 2 (voxel_offset self)) in
  stride <- last_stride (cfg self) ;;
  Ok (broadcast4 Qdiv indices
        (map (fun v => v * stride) (firstn 2 (base_voxel_size self)))).

(** Lines 31-36. *)
Definition compute_bev_indices (self : t) (keypoint_xyz : tensor3)
           (H W : nat) : result tensor4 :=
  indices <- fractional_bev_indices self keypoint_xyz ;;
  Ok (normalize_grid_sample_indices indices H W).

(** [N, C, D, H, W = volume.shape]: the last two axes. *)
Definition height (volume : tensor5) : nat :=
  length (hd [] (hd [] (hd [] volume))).
Definition width (volume : tensor5) : nat :=
  length (hd [] (hd [] (hd [] (hd [] volume)))).

(** Lines 38-48.  [interp] is the interpolation kernel of
    [F.grid_sample] and [volume] the result of [volume.dense()]. *)
Definition forward (interp : tensor2 -> Q -> Q -> Q) (self : t)
           (volume : tensor5) (keypoint_xyz : tensor3) : result tensor3 :=
  let H := height volume in
  let W := width volume in
  let volume := view_merge_CD volume in
  indices <- compute_bev_indices self keypoint_xyz H W ;;
  sampled <- grid_sample interp volume indices ;;
  Ok (squeeze2 sampled).

End BEV_FeatureGatherer.

(** ** numpy on integer arrays *)

Module Numpy.
Local Open Scope Z_scope.

(** The value an [int64] holds after an arithmetic result [z]. *)
Definition wrap64 (z : Z) : Z :=
  (z + 2 ^ 63) mod 2 ^ 64 - 2 ^ 63.

Definition int64_range (z : Z) : Prop := - 2 ^ 63 <= z < 2 ^ 63.

(** [a[::-1]] *)
Definition reversed (a : list Z) : list Z := rev a.

(** [a + b] on one-axis [int64] arrays: equal lengths add pointwise, a
    length-one operand is broadcast, anything else is refused. *)
Definition add (a b : list Z) : result (list Z) :=
  if Nat.eqb (length a) (length b)
  then Ok (Torch.zip_with (fun x y => wrap64 (x + y)) a b)
  else match a, b with
       | [x], _ => Ok (map (fun y => wrap64 (x + y)) b)
       | _, [y] => Ok (map (fun x => wrap64 (x + y)) a)
       | _, _ => Err ValueError
       end.

(** [np.pad(t, ((b0, a0), (b1, a1)), mode="constant", constant_values=c)]
    on a two-axis array. *)
Definition pad2 (t : list (list Z)) (b0 a0 b1 a1 : nat) (c : Z)
  : list (list Z) :=
  let width := (length (hd [] t) + b1 + a1)%nat in
  repeat (repeat c width) b0
    ++ map (fun row => repeat c b1 ++ row ++ repeat c a1) t
    ++ repeat (repeat c width) a0.

End Numpy.

(** ** Farthest-point sampling *)

Module Pointnet2.
Local Open Scope Q_scope.

Definition coord (i : nat) (p : tensor1) : Q := nth i p 0.

(** Squared Euclidean distance of the xyz coordinates of two points. *)
Definition dist2 (p q : tensor1) : Q :=
    (coord 0 p - coord 0 q) * (coord 0 p - coord 0 q)
  + (coord 1 p - coord 1 q) * (coord 1 p - coord 1 q)
  + (coord 2 p - coord 2 q) * (coord 2 p - coord 2 q).

Definition point (cloud : tensor2) (i : nat) : tensor1 := nth i cloud [].

(** Distance of point [k] to the nearest point of a non-empty selection
    [s0 :: rest]. *)
Definition min_dist2 (cloud : tensor2) (s0 : nat) (rest : list nat)
           (k : nat) : Q :=
  fold_left (fun acc s => Qmin acc (dist2 (point cloud k) (point cloud s)))
            rest (dist2 (point cloud k) (point cloud s0)).

(** The indices of a cloud of [n] points that are not yet selected. *)
Definition unselected (n : nat) (selected : list nat) : list nat :=
  filter (fun k => negb (existsb (Nat.eqb k) selected)) (seq 0 n).

(** Among the candidates [best :: candidates], the one farthest from the
    selection [s0 :: rest]; of several equally far the first is kept. *)
Fixpoint farthest_of (cloud : tensor2) (s0 : nat) (rest : list nat)
         (best : nat) (candidates : list nat) : nat :=
  match candidates with
  | [] => best
  | k :: candidates' =>
      if Qlt_le_dec (min_dist2 cloud s0 rest best) (min_dist2 cloud s0 rest k)
      then farthest_of cloud s0 rest k candidates'
      else farthest_of cloud s0 rest best candidates'
  end.

(** [steps] greedy steps from the selection [s0 :: rest]: each step adds
    the unselected point farthest from the points selected so far. *)
Fixpoint fps_loop (cloud : tensor2) (steps : nat) (s0 : nat)
         (rest : list nat) : list nat :=
  match steps with
  | O => s0 :: rest
  | S steps' =>
      match unselected (length cloud) (s0 :: rest) with
      | [] => s0 :: rest
      | k :: candidates =>
          fps_loop cloud steps' s0
                   (rest ++ [farthest_of cloud s0 rest k candidates])
      end
  end.

(** Modelled from the spec: the sampling of one cloud behind
    [furthest_point_sample], a compiled kernel outside the sources.
    Sections 4.3 and 7 of the specification: a cloud with fewer points
    than keypoints asked for is rejected with an error and never padded;
    otherwise the selection starts from the first point and repeatedly
    takes, among the points not yet selected, the one maximising the
    minimum distance to the selected ones, until [npoint] indices are
    selected.  Which of several equally far points is taken is left
    open by the specification; the model keeps the first. *)
Definition fps (cloud : tensor2) (npoint : nat) : result (list nat) :=
  if Nat.ltb (length cloud) npoint
  then Err InsufficientDataError
  else Ok match npoint with
          | O => []
          | S steps => fps_loop cloud steps 0%nat []
          end.

(** The number of feature channels a [PointnetSAModuleMSG] built with the
    channel lists [mlps_i] returns: the sum over its radii of the last
    entry of each list (the docstring of [pnet_forward]). *)
Definition out_channels (mlps_i : list (list nat)) : nat :=
  list_sum (map (fun mlp => last mlp 0%nat) mlps_i).

(** Modelled from the spec: [pointnet2.pointnet2_utils.furthest_point_sample]
    is a compiled kernel outside the sources.  It samples every cloud of
    the batch as sections 4.3 and 7 of the specification describe ([fps]),
    and fails when one of them is rejected. *)
Fixpoint furthest_point_sample (xyz : tensor3) (npoint : nat)
  : result (list (list nat)) :=
  match xyz with
  | [] => Ok []
  | cloud :: clouds =>
      bind (fps cloud npoint) (fun indices =>
      bind (furthest_point_sample clouds npoint) (fun tail =>
      Ok (indices :: tail)))
  end.

End Pointnet2.

(** ** ROI grid pooling *)

Module RoiGridPool.
Local Open Scope Q_scope.

(** [Boxes3D]: a set of proposals, one row of seven values per box. *)
Record Boxes3D : Type := { tensor : tensor2 }.

(** The geometry and the reduction that the specification leaves to the
    implementation: the box-local lattice of step 1, the change to world
    coordinates of step 2 (rotation by the heading, translation by the
    centre), the radius of the ball query and the reduction of step 4. *)
Record t : Type := {
  lattice  : list tensor1;
  to_world : tensor1 -> tensor1 -> tensor1;
  radius   : Q;
  pool     : list tensor1 -> tensor1
}.

(** Descriptor of keypoint [k]: column [k] of the channel-major feature
    matrix. *)
Definition descriptor (features : tensor2) (k : nat) : tensor1 :=
  Torch.column k features.

(** Step 3: the keypoints within the radius of a grid point. *)
Definition ball_query (self : t) (g : tensor1) (keypoints : tensor2)
  : list nat :=
  filter (fun k =>
            match Qlt_le_dec (radius self * radius self)
                             (Pointnet2.dist2 (Pointnet2.point keypoints k) g)
            with
            | left _ => false
            | right _ => true
            end)
         (seq 0 (length keypoints)).

Definition pool_grid_point (self : t) (keypoints features : tensor2)
           (g : tensor1) : tensor1 :=
  match ball_query self g keypoints with
  | [] => repeat 0 (length features)
  | near => pool self (map (descriptor features) near)
  end.

(** Modelled from the spec: [pvrcnn.roi_grid_pool.RoiGridPool] is not in
    the sources.  Section 4.6 of the specification: every box is handled
    on its own; its lattice points are moved to world coordinates; each
    grid point pools the descriptors of the keypoints within the radius,
    and is the zero feature when there is none.  The result has one
    entry per box and, in it, one feature per lattice point.  Keypoints
    and features are those of the unit batch. *)
Definition forward (self : t) (proposals : Boxes3D)
           (keypoints_xyz features : tensor3) : tensor3 :=
  let keypoints := Torch.squeeze0 keypoints_xyz in
  let features := Torch.squeeze0 features in
  map (fun box =>
         map (fun g => pool_grid_point self keypoints features
                         (to_world self box g))
             (lattice self))
      (tensor proposals).

End RoiGridPool.

(** ** Collaborators of [PV_RCNN] that live outside [model.py] *)

(** [spconv.utils.VoxelGenerator]: its grid size, in (X, Y, Z) order, and
    [generate], which returns the voxels, their (Z, Y, X) coordinates and
    their occupancy counts. *)
Record VoxelGenerator : Type := {
  grid_size : list Z;
  generate  : tensor2 -> tensor3 * list (list Z) * list Z
}.

(** [spconv.SparseConvTensor], as far as [model.py] uses it. *)
Record SparseConvTensor : Type := { dense : tensor5 }.

(** [pvrcnn.backbone.SparseCNN]: called with the voxel features, the voxel
    coordinates and the batch size; returns the per-scale (centres,
    features) pairs and the final volume. *)
Record SparseCNN : Type := {
  cnn_voxel_offset    : tensor1;
  cnn_base_voxel_size : tensor1;
  cnn_forward : tensor2 -> list (list Z) -> nat
                -> list (tensor2 * tensor2) * SparseConvTensor
}.

(** A [PointnetSAModuleMSG] instance: called with (xyz, features, new_xyz),
    returns a pair whose second component holds the new features. *)
Definition Pnet : Type := tensor3 -> tensor3 -> tensor3 -> tensor3 * tensor3.

(** The constructors and functions imported by [model.py].  [rng] is the
    state of torch's random generator; [rand g r c] is [torch.rand((r, c))]
    drawn in state [g], together with the next state. *)
Record Library (rng : Type) : Type := {
  new_VoxelGenerator : list Q -> list Q -> nat -> nat -> VoxelGenerator;
  new_SparseCNN : list Z -> PvrcnnConfig -> SparseCNN;
  new_VoxelFeatureExtractor : tensor3 -> list Z -> tensor2;
  new_PointnetSAModuleMSG :
    Z -> list Q -> list nat -> list (list nat) -> bool -> Pnet;
  new_RoiGridPool : PvrcnnConfig -> RoiGridPool.t;
  interp : tensor2 -> Q -> Q -> Q;
  rand : rng -> nat -> nat -> tensor2 * rng
}.

Arguments new_VoxelGenerator {rng} _ _ _ _ _.
Arguments new_SparseCNN {rng} _ _ _.
Arguments new_VoxelFeatureExtractor {rng} _ _ _.
Arguments new_PointnetSAModuleMSG {rng} _ _ _ _ _ _.
Arguments new_RoiGridPool {rng} _ _.
Arguments interp {rng} _ _ _ _.
Arguments rand {rng} _ _ _ _.

(** What [model.py] relies on of a [PointnetSAModuleMSG]: its features
    have the batch size of the query points and the channel count given by
    its channel lists. *)
Definition pnet_contract {rng : Type} (lib : Library rng) : Prop :=
  forall npoint radii_i nsamples_i mlps_i use_xyz xyz features new_xyz,
    let out := snd (new_PointnetSAModuleMSG lib npoint radii_i nsamples_i
                      mlps_i use_xyz xyz features new_xyz) in
    length out = length new_xyz
    /\ Forall (fun b => length b = Pointnet2.out_channels mlps_i) out.

(** ** class PV_RCNN *)

Module PV_RCNN.
Import Torch.
Local Open Scope result_scope.

Section WithLibrary.
Context {rng : Type}.
Variable lib : Library rng.

Record t : Type := {
  pnets : list Pnet;
  roi_grid_pool : RoiGridPool.t;
  voxel_generator : VoxelGenerator;
  vfe : tensor3 -> list Z -> tensor2;
  cnn : SparseCNN;
  bev_gatherer : BEV_FeatureGatherer.t;
  cfg : PvrcnnConfig
}.

(** Lines 68-77. *)
Definition build_voxel_generator (cfg : PvrcnnConfig)
  : result (VoxelGenerator * list Z) :=
  let voxel_generator :=
    new_VoxelGenerator lib (voxel_size cfg) (grid_bounds cfg)
                       (max_voxels cfg) (max_num_points cfg) in
  grid_shape <-
    Numpy.add (Numpy.reversed (grid_size voxel_generator)) [1; 0; 0]%Z ;;
  Ok (voxel_generator, grid_shape).

Definition subscript {A : Type} (l : list A) (i : nat) : result A :=
  match nth_error l i with
  | Some a => Ok a
  | None => Err IndexError
  end.

(** Lines 79-87: one module per entry of [cfg.mlps]. *)
Fixpoint build_pointnets_from (cfg : PvrcnnConfig) (i : nat)
         (rest : list (list (list nat))) : result (list Pnet) :=
  match rest with
  | [] => Ok []
  | mlps_i :: rest' =>
      radii_i <- subscript (radii cfg) i ;;
      nsamples_i <- subscript (nsamples cfg) i ;;
      tail <- build_pointnets_from cfg (S i) rest' ;;
      Ok (new_PointnetSAModuleMSG lib (-1)%Z radii_i nsamples_i mlps_i true
            :: tail)
  end.

Definition build_pointnets (cfg : PvrcnnConfig) : result (list Pnet) :=
  build_pointnets_from cfg 0 (mlps cfg).

(** Lines 89-92. *)
Definition build_bev_gatherer (cfg : PvrcnnConfig) (cnn : SparseCNN)
  : BEV_FeatureGatherer.t :=
  {| BEV_FeatureGatherer.cfg := cfg;
     BEV_FeatureGatherer.voxel_offset := cnn_voxel_offset cnn;
     BEV_FeatureGatherer.base_voxel_size := cnn_base_voxel_size cnn |}.

(** Lines 58-66. *)
Definition init (cfg : PvrcnnConfig) : result t :=
  pnets <- build_pointnets cfg ;;
  let roi_grid_pool := new_RoiGridPool lib cfg in
  ' (voxel_generator, grid_shape) <- build_voxel_generator cfg ;;
  let vfe := new_VoxelFeatureExtractor lib in
  let cnn := new_SparseCNN lib grid_shape cfg in
  let bev_gatherer := build_bev_gatherer cfg cnn in
  Ok {| pnets := pnets; roi_grid_pool := roi_grid_pool;
        voxel_generator := voxel_generator; vfe := vfe; cnn := cnn;
        bev_gatherer := bev_gatherer; cfg := cfg |}.

(** Lines 94-108. *)
Definition voxelize (self : t) (points : tensor2)
  : tensor2 * tensor2 * list (list Z) :=
  let '(features, coordinates, occupancy) :=
    generate (voxel_generator self) points in
  let coordinates := Numpy.pad2 coordinates 0 0 1 0 0%Z in
  let features := vfe self features occupancy in
  (points, features, coordinates).

(** [points[:, indices, :3]] *)
Fixpoint gather_xyz (cloud : tensor2) (indices : list nat)
  : result tensor2 :=
  match indices with
  | [] => Ok []
  | i :: rest =>
      p <- subscript cloud i ;;
      tail <- gather_xyz cloud rest ;;
      Ok (firstn 3 p :: tail)
  end.

Fixpoint gather_batch (points : tensor3) (indices : list nat)
  : result tensor3 :=
  match points with
  | [] => Ok []
  | cloud :: rest =>
      head <- gather_xyz cloud indices ;;
      tail <- gather_batch rest indices ;;
      Ok (head :: tail)
  end.

(** Lines 110-119. *)
Definition sample_keypoints (self : t) (points : tensor2) : result tensor3 :=
  let points := unsqueeze0 points in
  indices <-
    Pointnet2.furthest_point_sample points (n_keypoints (cfg self)) ;;
  gather_batch points (squeeze0 indices).

(** Lines 121-138. *)
Fixpoint pnet_forward_zip (cnn_out : list (tensor2 * tensor2))
         (pnets : list Pnet) (keypoint_xyz : tensor3) : list tensor3 :=
  match cnn_out, pnets with
  | (voxel_xyz, voxel_features) :: cnn_out', pnet :: pnets' =>
      let voxel_xyz := unsqueeze0 voxel_xyz in
      let voxel_features := unsqueeze0 (transpose voxel_features) in
      let out := snd (pnet voxel_xyz voxel_features keypoint_xyz) in
      out :: pnet_forward_zip cnn_out' pnets' keypoint_xyz
  | _, _ => []
  end.

Definition pnet_forward (self : t) (cnn_out : list (tensor2 * tensor2))
           (keypoint_xyz : tensor3) : list tensor3 :=
  pnet_forward_zip cnn_out (pnets self) keypoint_xyz.

(** Lines 144-150: the fused descriptor, with the keypoints it
    belongs to. *)
Definition fused_features (self : t) (points : tensor2)
  : result (tensor3 * tensor3) :=
  let '(points, features, coordinates) := voxelize self points in
  let '(cnn_out, final_volume) :=
    cnn_forward (cnn self) features coordinates 1 in
  raw <- split_3_1 points ;;
  let cnn_out := [raw] ++ cnn_out in
  keypoints_xyz <- sample_keypoints self points ;;
  let pnet_out := pnet_forward self cnn_out keypoints_xyz in
  bev_out <- BEV_FeatureGatherer.forward (interp lib) (bev_gatherer self)
               (dense final_volume) keypoints_xyz ;;
  let features := cat_dim1 (pnet_out ++ [bev_out]) in
  Ok (keypoints_xyz, features).

(** Line 151: [Boxes3D(20 * torch.rand((25, 7)).cuda())]. *)
Definition draw_proposals (g : rng) : RoiGridPool.Boxes3D * rng :=
  let '(u, g') := rand lib g 25 7 in
  ({| RoiGridPool.tensor := scale 20 u |}, g').

(** Lines 140-153.  The generator state is threaded through. *)
Definition forward (self : t) (g : rng) (points : tensor2)
  : result (tensor3 * rng) :=
  ' (keypoints_xyz, features) <- fused_features self points ;;
  let '(proposals, g') := draw_proposals g in
  let pooled_features :=
    RoiGridPool.forward (roi_grid_pool self) proposals
                        keypoints_xyz features in
  Ok (pooled_features, g').

End WithLibrary.
End PV_RCNN.

(** ** A small instance of the collaborators, to run the model on *)

Module Fixture.
Local Open Scope Q_scope.

(** Grid size per axis: the extent of the bounds over the voxel size,
    rounded to the nearest integer. *)
Definition axis_cells (voxel_size grid_bounds : list Q) (i : nat) : Z :=
  Qfloor ((nth (3 + i) grid_bounds 0 - nth i grid_bounds 0)
          / nth i voxel_size 1 + (1 # 2)).

Definition cell (voxel_size grid_bounds : list Q) (p : tensor1) (i : nat) : Z :=
  Qfloor ((nth i p 0 - nth i grid_bounds 0) / nth i voxel_size 1).

(** One voxel per accepted point, coordinates in (Z, Y, X) order. *)
Definition voxel_generator (voxel_size grid_bounds : list Q)
           (max_voxels max_num_points : nat) : VoxelGenerator :=
  {| grid_size := map (axis_cells voxel_size grid_bounds) [0; 1; 2]%nat;
     generate := fun points =>
       let kept := firstn max_voxels points in
       (map (fun p => [p]) kept,
        map (fun p => map (cell voxel_size grid_bounds p) [2; 1; 0]%nat) kept,
        map (fun _ => 1%Z) kept) |}.

(** Every voxel keeps the auxiliary channel of its first point. *)
Definition voxel_feature_extractor (voxels : tensor3) (occupancy : list Z)
  : tensor2 :=
  map (fun v => skipn 3 (hd [] v)) voxels.

(** A backbone with one scale and a constant 2 x 2 x 3 x 3 volume. *)
Definition sparse_cnn (grid_shape : list Z) (cfg : PvrcnnConfig) : SparseCNN :=
  {| cnn_voxel_offset := firstn 3 (grid_bounds cfg);
     cnn_base_voxel_size := voxel_size cfg;
     cnn_forward := fun features coordinates batch_size =>
       ([(map (fun c => map inject_Z (rev (skipn 1 c))) coordinates, features)],
        {| dense :=
             [[ [ [[1; 2; 3]; [4; 5; 6]; [7; 8; 9]];
                  [[2; 3; 4]; [5; 6; 7]; [8; 9; 1]] ];
                [ [[3; 4; 5]; [6; 7; 8]; [9; 1; 2]];
                  [[4; 5; 6]; [7; 8; 9]; [1; 2; 3]] ] ]] |}) |}.

(** A set-abstraction module that only counts: every output channel of
    every keypoint holds the number of source points. *)
Definition pointnet (npoint : Z) (radii : list Q) (nsamples : list nat)
           (mlps_i : list (list nat)) (use_xyz : bool) : Pnet :=
  fun xyz features new_xyz =>
    (new_xyz,
     map (fun keypoints =>
            repeat (map (fun _ => inject_Z (Z.of_nat (length (hd [] xyz))))
                        keypoints)
                   (Pointnet2.out_channels mlps_i))
         new_xyz).

Definition elementwise_max (ds : list tensor1) : tensor1 :=
  match ds with
  | [] => []
  | d :: rest => fold_left (Torch.zip_with Qmax) rest d
  end.

(** A one-point lattice at the box centre, no rotation. *)
Definition roi_grid_pool (cfg : PvrcnnConfig) : RoiGridPool.t :=
  {| RoiGridPool.lattice := [[0; 0; 0]];
     RoiGridPool.to_world := fun box g => Torch.zip_with Qplus (firstn 3 box) g;
     RoiGridPool.radius := 12;
     RoiGridPool.pool := elementwise_max |}.

(** The corner pixel, shifted by the location. *)
Definition corner_interp (image : tensor2) (x y : Q) : Q :=
  nth 0 (hd [] image) 0 + x + y.

(** A linear congruential generator on 31 bits. *)
Definition lcg_next (s : Z) : Z := ((1103515245 * s + 12345) mod 2 ^ 31)%Z.

Fixpoint lcg_row (n : nat) (s : Z) : tensor1 * Z :=
  match n with
  | O => ([], s)
  | S n' =>
      let s' := lcg_next s in
      let '(row, s'') := lcg_row n' s' in
      (inject_Z s' / inject_Z (2 ^ 31) :: row, s'')
  end.

Fixpoint lcg_rand (s : Z) (rows cols : nat) : tensor2 * Z :=
  match rows with
  | O => ([], s)
  | S rows' =>
      let '(row, s') := lcg_row cols s in
      let '(rest, s'') := lcg_rand s' rows' cols in
      (row :: rest, s'')
  end.

Definition lib : Library Z :=
  {| new_VoxelGenerator := voxel_generator;
     new_SparseCNN := sparse_cnn;
     new_VoxelFeatureExtractor := voxel_feature_extractor;
     new_PointnetSAModuleMSG := pointnet;
     new_RoiGridPool := roi_grid_pool;
     interp := corner_interp;
     rand := lcg_rand |}.

Definition cfg : PvrcnnConfig :=
  {| voxel_size := [1 # 2; 1 # 2; 1];
     grid_bounds := [0; 0; 0; 4; 4; 2];
     max_voxels := 16;
     max_num_points := 4;
     strides := [1; 2];
     n_keypoints := 2;
     radii := [[1; 2]; [2; 4]];
     nsamples := [[4; 8]%nat; [4; 8]%nat];
     mlps := [[[2; 3]; [2; 1]]; [[4; 2]; [4; 1]]]%nat |}.

(** Three points with an intensity channel. *)
Definition cloud : tensor2 :=
  [[0; 0; 0; 1]; [3; 1; 1; 2]; [1; 3; 0; 3]].

Definition net : result PV_RCNN.t := PV_RCNN.init lib cfg.

(** The network that [init] builds from [cfg]. *)
Definition model : PV_RCNN.t :=
  {| PV_RCNN.pnets :=
       [pointnet (-1) [1; 2] [4; 8]%nat [[2; 3]; [2; 1]]%nat true;
        pointnet (-1) [2; 4] [4; 8]%nat [[4; 2]; [4; 1]]%nat true];
     PV_RCNN.roi_grid_pool := roi_grid_pool cfg;
     PV_RCNN.voxel_generator :=
       voxel_generator (voxel_size cfg) (grid_bounds cfg)
                       (max_voxels cfg) (max_num_points cfg);
     PV_RCNN.vfe := voxel_feature_extractor;
     PV_RCNN.cnn := sparse_cnn [3; 8; 8]%Z cfg;
     PV_RCNN.bev_gatherer :=
       PV_RCNN.build_bev_gatherer cfg (sparse_cnn [3; 8; 8]%Z cfg);
     PV_RCNN.cfg := cfg |}.

(** The intermediate values of the forward pass of [model] on [cloud]. *)
Definition generated : tensor3 * list (list Z) * list Z :=
  generate (PV_RCNN.voxel_generator model) cloud.
Definition run_voxels : tensor3 := fst (fst generated).
Definition run_coordinates : list (list Z) := snd (fst generated).
Definition run_occupancy : list Z := snd generated.
Definition backbone : list (tensor2 * tensor2) * SparseConvTensor :=
  cnn_forward (PV_RCNN.cnn model)
              (PV_RCNN.vfe model run_voxels run_occupancy)
              (Numpy.pad2 run_coordinates 0 0 1 0 0%Z) 1.
Definition run_cnn_out : list (tensor2 * tensor2) := fst backbone.
Definition run_volume : SparseConvTensor := snd backbone.
Definition run_dense : tensor4 := hd [] (dense run_volume).
Definition run_keypoints : tensor3 := [[[0; 0; 0]; [3; 1; 1]]].
Definition run_bev : tensor3 :=
  match BEV_FeatureGatherer.forward corner_interp
          (PV_RCNN.bev_gatherer model) (dense run_volume) run_keypoints with
  | Ok b => b
  | Err _ => []
  end.

(** Two input points at the same place, and a single input point. *)
Definition coincident_cloud : tensor2 := [[0; 0; 0; 1]; [0; 0; 0; 2]].
Definition single_point : tensor2 := [[1; 2; 0; 5]].

Definition gatherer : BEV_FeatureGatherer.t :=
  {| BEV_FeatureGatherer.cfg := cfg;
     BEV_FeatureGatherer.voxel_offset := [0; 0; 0];
     BEV_FeatureGatherer.base_voxel_size := [1 # 2; 1 # 2; 1] |}.

End Fixture.

(** ** Notions used to state the properties *)

(** Equality of tensors up to the equality of rationals. *)
Definition teq3 : tensor3 -> tensor3 -> Prop :=
  Forall2 (Forall2 (Forall2 Qeq)).

Definition teq4 : tensor4 -> tensor4 -> Prop :=
  Forall2 (Forall2 (Forall2 (Forall2 Qeq))).

(** The index tensor of one keypoint: axes (1, 1, 1, 2). *)
Definition one_index (x y : Q) : tensor4 := [[[[x; y]]]].

(** What lines 27-28 do to the index [i] on an axis paired with the
    extent [n]. *)
Definition axis_normalize (n : nat) (i : Q) : Q :=
  (2 * (Qmin (Qmax 0 i) (inject_Z (Z.of_nat n - 1))
        / (inject_Z (Z.of_nat n - 1) - 1)) - 1)%Q.

(** The keypoint tensor, axes (1, K, 3), of a list of xyz triples. *)
Definition keypoint_tensor (kps : list (Q * Q * Q)) : tensor3 :=
  [map (fun p => let '(x, y, z) := p in [x; y; z]) kps].

(** A module built, as [build_pointnets] does, from the channel lists
    [mlps_i]. *)
Definition built_from {rng : Type} (lib : Library rng)
           (pnet : Pnet) (mlps_i : list (list nat)) : Prop :=
  exists radii_i nsamples_i,
    pnet = new_PointnetSAModuleMSG lib (-1)%Z radii_i nsamples_i mlps_i true.

(** A property of every (x, y) row of an index tensor, whose last axis
    has two entries. *)
Definition index_rows (P : Q -> Q -> Prop) (t : tensor4) : Prop :=
  Forall (Forall (Forall (fun row => exists x y : Q, row = [x; y] /\ P x y))) t.

(** ** Further configurations to run the model on *)

Module Cases.
Local Open Scope Q_scope.

(** [Fixture.cfg] with a radius list for the first scale only. *)
Definition cfg_short_radii : PvrcnnConfig :=
  {| voxel_size := voxel_size Fixture.cfg;
     grid_bounds := grid_bounds Fixture.cfg;
     max_voxels := max_voxels Fixture.cfg;
     max_num_points := max_num_points Fixture.cfg;
     strides := strides Fixture.cfg;
     n_keypoints := n_keypoints Fixture.cfg;
     radii := [[1; 2]];
     nsamples := nsamples Fixture.cfg;
     mlps := mlps Fixture.cfg |}.

(** [Fixture.cfg] with an empty stride list, and the network built from
    it. *)
Definition cfg_no_strides : PvrcnnConfig :=
  {| voxel_size := voxel_size Fixture.cfg;
     grid_bounds := grid_bounds Fixture.cfg;
     max_voxels := max_voxels Fixture.cfg;
     max_num_points := max_num_points Fixture.cfg;
     strides := [];
     n_keypoints := n_keypoints Fixture.cfg;
     radii := radii Fixture.cfg;
     nsamples := nsamples Fixture.cfg;
     mlps := mlps Fixture.cfg |}.

Definition model_no_strides : PV_RCNN.t :=
  {| PV_RCNN.pnets := PV_RCNN.pnets Fixture.model;
     PV_RCNN.roi_grid_pool := Fixture.roi_grid_pool cfg_no_strides;
     PV_RCNN.voxel_generator := PV_RCNN.voxel_generator Fixture.model;
     PV_RCNN.vfe := Fixture.voxel_feature_extractor;
     PV_RCNN.cnn := Fixture.sparse_cnn [3; 8; 8]%Z cfg_no_strides;
     PV_RCNN.bev_gatherer :=
       PV_RCNN.build_bev_gatherer cfg_no_strides
         (Fixture.sparse_cnn [3; 8; 8]%Z cfg_no_strides);
     PV_RCNN.cfg := cfg_no_strides |}.

(** A cloud without the auxiliary channel, and index tensors for a 6 x 4
    image: one inside the image, one with rows on either side of it. *)
Definition cloud_xyz_only : tensor2 := [[0; 0; 0]; [3; 1; 1]].
Definition indices_inside : tensor4 := [[[[0; 3]; [5; 0]; [5 # 2; 1 # 3]]]].
Definition indices_anywhere : tensor4 := [[[[-4; 9]; [7; -1]; [2; 2]]]].

(** A backbone scale beyond those of [Fixture.run_cnn_out]. *)
Definition surplus_scale : tensor2 * tensor2 := ([[1; 1; 1]], [[7; 7]]).

(** [Fixture.model] with a backbone that returns no scale and a volume of
    batch size two. *)
Definition two_batch_cnn : SparseCNN :=
  {| cnn_voxel_offset := [0; 0; 0];
     cnn_base_voxel_size := [1 # 2; 1 # 2; 1];
     cnn_forward := fun features coordinates batch_size =>
       ([], {| dense := dense Fixture.run_volume ++ dense Fixture.run_volume |}) |}.

Definition model_two_batches : PV_RCNN.t :=
  {| PV_RCNN.pnets := PV_RCNN.pnets Fixture.model;
     PV_RCNN.roi_grid_pool := PV_RCNN.roi_grid_pool Fixture.model;
     PV_RCNN.voxel_generator := PV_RCNN.voxel_generator Fixture.model;
     PV_RCNN.vfe := PV_RCNN.vfe Fixture.model;
     PV_RCNN.cnn := two_batch_cnn;
     PV_RCNN.bev_gatherer := PV_RCNN.bev_gatherer Fixture.model;
     PV_RCNN.cfg := PV_RCNN.cfg Fixture.model |}.

End Cases.

(** * Properties *)

Section BEV_Properties.
Import Torch BEV_FeatureGatherer.
Local Open Scope Q_scope.

Lemma teq4_one (x y x' y' : Q) :
  x == x' -> y == y' -> teq4 (one_index x y) (one_index x' y').
Proof. intros; repeat constructor; assumption. Qed.

(** The normalisation is the clamp of line 27 followed by line 28. *)
Lemma normalize_after_clamp (indices : tensor4) (H W : nat) :
  normalize_grid_sample_indices indices H W
  = map4 (fun x => 2 * x - 1)
      (broadcast4 Qdiv (clamp_indices indices H W)
                  (map (fun d => d - 1) (image_dims H W))).
Proof. reflexivity. Qed.

Lemma clamp_one (x y : Q) (H W : nat) :
  clamp_indices (one_index x y) H W
  = one_index (Qmin (Qmax 0 x) (inject_Z (Z.of_nat H - 1)))
              (Qmin (Qmax 0 y) (inject_Z (Z.of_nat W - 1))).
Proof. reflexivity. Qed.

Lemma normalize_one (x y : Q) (H W : nat) :
  normalize_grid_sample_indices (one_index x y) H W
  = one_index
      (2 * (Qmin (Qmax 0 x) (inject_Z (Z.of_nat H - 1))
            / (inject_Z (Z.of_nat H - 1) - 1)) - 1)
      (2 * (Qmin (Qmax 0 y) (inject_Z (Z.of_nat W - 1))
            / (inject_Z (Z.of_nat W - 1) - 1)) - 1).
Proof. reflexivity. Qed.

Lemma inject_pred (n : nat) :
  inject_Z (Z.of_nat n - 1) == inject_Z (Z.of_nat n) - 1.
Proof.
  unfold Z.sub. rewrite inject_Z_plus. reflexivity.
Qed.

Lemma inject_nat_le (a b : nat) :
  (a <= b)%nat -> inject_Z (Z.of_nat a) <= inject_Z (Z.of_nat b).
Proof. intros; rewrite <- Zle_Qle; lia. Qed.

Lemma axis_normalize_zero (n : nat) :
  (3 <= n)%nat -> axis_normalize n 0 == -1.
Proof.
  intros Hn. unfold axis_normalize.
  assert (Hb : 2 <= inject_Z (Z.of_nat n) - 1).
  { pose proof (inject_nat_le 3 n Hn) as Hle. simpl in Hle. unfold inject_Z in Hle at 1. lra. }
  rewrite Q.max_l by lra.
  rewrite Q.min_l by (rewrite inject_pred; lra).
  rewrite inject_pred. field. lra.
Qed.

Lemma axis_normalize_top (n : nat) :
  (3 <= n)%nat ->
  axis_normalize n (inject_Z (Z.of_nat n - 1))
  == inject_Z (Z.of_nat n) / (inject_Z (Z.of_nat n) - 2).
Proof.
  intros Hn. unfold axis_normalize.
  assert (Hb : 3 <= inject_Z (Z.of_nat n)).
  { pose proof (inject_nat_le 3 n Hn) as Hle. simpl in Hle. unfold inject_Z in Hle at 1. lra. }
  rewrite Q.max_r by (rewrite inject_pred; lra).
  rewrite Q.min_l by lra.
  rewrite inject_pred. field. lra.
Qed.

Lemma top_ratio_above_one (n : nat) :
  (3 <= n)%nat -> 1 < inject_Z (Z.of_nat n) / (inject_Z (Z.of_nat n) - 2).
Proof.
  intros Hn.
  assert (Hb : 3 <= inject_Z (Z.of_nat n)).
  { pose proof (inject_nat_le 3 n Hn) as Hle. simpl in Hle. unfold inject_Z in Hle at 1. lra. }
  apply Qlt_shift_div_l; lra.
Qed.

End BEV_Properties.

Section BEV_Claims.
Import Torch BEV_FeatureGatherer.
Local Open Scope Q_scope.

(** C1.  On an axis of extent [dim >= 3] the normalisation sends the
    pixel index 0 to -1, but it sends the last pixel index [dim - 1] to
    [dim / (dim - 2)], which is above +1: the divisor of line 28 is
    [image_dims - 1], that is [dim - 2], not [dim - 1]. *)
Theorem normalize_border_pixels (H W : nat) :
  (3 <= H)%nat -> (3 <= W)%nat ->
  teq4 (normalize_grid_sample_indices (one_index 0 0) H W)
       (one_index (-1) (-1))
  /\ teq4 (normalize_grid_sample_indices
             (one_index (inject_Z (Z.of_nat H - 1))
                        (inject_Z (Z.of_nat W - 1))) H W)
          (one_index
             (inject_Z (Z.of_nat H) / (inject_Z (Z.of_nat H) - 2))
             (inject_Z (Z.of_nat W) / (inject_Z (Z.of_nat W) - 2)))
  /\ 1 < inject_Z (Z.of_nat H) / (inject_Z (Z.of_nat H) - 2)
  /\ 1 < inject_Z (Z.of_nat W) / (inject_Z (Z.of_nat W) - 2).
Proof.
  intros HH HW. rewrite !normalize_one. repeat split.
  - apply teq4_one; apply axis_normalize_zero; assumption.
  - apply teq4_one; apply axis_normalize_top; assumption.
  - apply top_ratio_above_one; assumption.
  - apply top_ratio_above_one; assumption.
Qed.

(** The last pixel of a 4 x 4 image, index 3 on both axes, is sent to 2. *)
Lemma normalize_border_pixels_witness :
  teq4 (normalize_grid_sample_indices (one_index 0 0) 4 4)
       (one_index (-1) (-1))
  /\ teq4 (normalize_grid_sample_indices
             (one_index (inject_Z (Z.of_nat 4 - 1))
                        (inject_Z (Z.of_nat 4 - 1))) 4 4)
          (one_index
             (inject_Z (Z.of_nat 4) / (inject_Z (Z.of_nat 4) - 2))
             (inject_Z (Z.of_nat 4) / (inject_Z (Z.of_nat 4) - 2)))
  /\ 1 < inject_Z (Z.of_nat 4) / (inject_Z (Z.of_nat 4) - 2)
  /\ 1 < inject_Z (Z.of_nat 4) / (inject_Z (Z.of_nat 4) - 2).
Proof. apply (normalize_border_pixels 4 4); lia. Defined.

Example normalize_last_pixel_4x4 :
  teq4 (normalize_grid_sample_indices (one_index 3 3) 4 4) (one_index 2 2).
Proof. apply teq4_one; reflexivity. Qed.

(** C2.  The clamp of line 27 bounds the first (x) component of an index
    by [H - 1] and the second (y) component by [W - 1]: the bounds are
    paired with the components in the order (H, W), not (W, H).  An x
    index at or beyond [H - 1] therefore comes out as [H - 1], whatever
    [W] is. *)
Theorem clamp_pairs_x_with_height (H W : nat) (x y : Q) :
  (1 <= H)%nat -> (1 <= W)%nat ->
  exists x' y' : Q,
    clamp_indices (one_index x y) H W = one_index x' y'
    /\ (0 <= x' /\ x' <= inject_Z (Z.of_nat H) - 1)
    /\ (0 <= y' /\ y' <= inject_Z (Z.of_nat W) - 1)
    /\ (inject_Z (Z.of_nat H) - 1 <= x -> x' == inject_Z (Z.of_nat H) - 1).
Proof.
  intros HH HW. rewrite clamp_one.
  pose proof (inject_nat_le 1 H HH) as HH'.
  pose proof (inject_nat_le 1 W HW) as HW'.
  simpl in HH', HW'. unfold inject_Z in HH' at 1, HW' at 1.
  do 2 eexists. split; [reflexivity|].
  rewrite !inject_pred.
  repeat split.
  - apply Q.min_glb; [apply Q.le_max_l | lra].
  - apply Q.le_min_r.
  - apply Q.min_glb; [apply Q.le_max_l | lra].
  - apply Q.le_min_r.
  - intros Hx. rewrite Q.max_r by lra. apply Q.min_r. assumption.
Qed.

(** A 6 x 4 image (H = 6, W = 4) and the x index 5. *)
Lemma clamp_pairs_x_with_height_witness :
  exists x' y' : Q,
    clamp_indices (one_index 5 0) 6 4 = one_index x' y'
    /\ (0 <= x' /\ x' <= inject_Z (Z.of_nat 6) - 1)
    /\ (0 <= y' /\ y' <= inject_Z (Z.of_nat 4) - 1)
    /\ (inject_Z (Z.of_nat 6) - 1 <= 5 -> x' == inject_Z (Z.of_nat 6) - 1).
Proof. apply (clamp_pairs_x_with_height 6 4 5 0); lia. Defined.

Example clamp_x_beyond_width :
  clamp_indices (one_index 5 0) 6 4 = one_index 5 0
  /\ inject_Z (Z.of_nat 4) - 1 < 5.
Proof. split; reflexivity. Qed.

Lemma last_stride_snoc (c : PvrcnnConfig) (pre : list Q) (s : Q) :
  strides c = pre ++ [s] -> last_stride c = Ok s.
Proof.
  intros E. unfold last_stride. rewrite E, rev_app_distr. reflexivity.
Qed.

(** C7.  With offset (ox, oy, oz), base voxel size (sx, sy, sz) and last
    stride s, the index computed for the keypoint (x, y, z) before the
    clamp is ((x - ox) / (sx * s), (y - oy) / (sy * s)). *)
Theorem fractional_bev_indices_formula
        (self : BEV_FeatureGatherer.t) (kps : list (Q * Q * Q))
        (ox oy oz sx sy sz s : Q) (pre : list Q) :
  voxel_offset self = [ox; oy; oz] ->
  base_voxel_size self = [sx; sy; sz] ->
  strides (cfg self) = pre ++ [s] ->
  ~ sx * s == 0 -> ~ sy * s == 0 ->
  fractional_bev_indices self (keypoint_tensor kps)
  = Ok [[map (fun p => let '(x, y, z) := p in
                       [(x - ox) / (sx * s); (y - oy) / (sy * s)]) kps]].
Proof.
  intros Eo Es Est _ _. unfold fractional_bev_indices.
  rewrite (last_stride_snoc _ pre s Est), Eo, Es. simpl.
  unfold broadcast4, take_cols, keypoint_tensor. simpl.
  do 3 f_equal. rewrite !map_map.
  apply map_ext. intros [[x y] z]. reflexivity.
Qed.

Lemma fractional_bev_indices_formula_witness :
  fractional_bev_indices Fixture.gatherer
                         (keypoint_tensor [(3, 1, 1); (0, 0, 0)])
  = Ok [[map (fun p => let '(x, y, z) := p in
                       [(x - 0) / ((1 # 2) * 2); (y - 0) / ((1 # 2) * 2)])
             [(3, 1, 1); (0, 0, 0)]]].
Proof.
  apply (fractional_bev_indices_formula
           Fixture.gatherer [(3, 1, 1); (0, 0, 0)] 0 0 0 (1 # 2) (1 # 2) 1 2 [1]);
    try reflexivity; intros E; discriminate E.
Defined.

End BEV_Claims.

Section Construction_Claims.
Import Numpy PV_RCNN.
Local Open Scope Z_scope.
Context {rng : Type}.
Variable lib : Library rng.

Lemma wrap64_small (z : Z) : int64_range z -> wrap64 z = z.
Proof.
  unfold int64_range, wrap64. intros Hz.
  rewrite Z.mod_small; lia.
Qed.

Lemma reversed_add_pad (gx gy gz : Z) :
  int64_range gx -> int64_range gy -> - 2 ^ 63 <= gz < 2 ^ 63 - 1 ->
  Numpy.add (reversed [gx; gy; gz]) [1; 0; 0] = Ok [gz + 1; gy; gx].
Proof.
  intros HX HY HZ. unfold Numpy.add, reversed. simpl.
  rewrite !Z.add_0_r, (wrap64_small gx HX), (wrap64_small gy HY).
  rewrite wrap64_small by (unfold int64_range; lia).
  reflexivity.
Qed.

(** C6.  When the generator reports the grid size (gx, gy, gz), the grid
    shape built with it is (gz + 1, gy, gx), and this is the shape the
    sparse backbone is constructed with. *)
Theorem grid_shape_reversed_and_padded (cfg : PvrcnnConfig) (gx gy gz : Z) :
  grid_size (new_VoxelGenerator lib (voxel_size cfg) (grid_bounds cfg)
                                (max_voxels cfg) (max_num_points cfg))
  = [gx; gy; gz] ->
  int64_range gx -> int64_range gy -> - 2 ^ 63 <= gz < 2 ^ 63 - 1 ->
  build_voxel_generator lib cfg
  = Ok (new_VoxelGenerator lib (voxel_size cfg) (grid_bounds cfg)
                           (max_voxels cfg) (max_num_points cfg),
        [gz + 1; gy; gx])
  /\ forall modules : list Pnet,
       build_pointnets lib cfg = Ok modules ->
       exists self : PV_RCNN.t,
         init lib cfg = Ok self
         /\ cnn self = new_SparseCNN lib [gz + 1; gy; gx] cfg.
Proof.
  intros Eg HX HY HZ.
  assert (Eb : build_voxel_generator lib cfg
               = Ok (new_VoxelGenerator lib (voxel_size cfg) (grid_bounds cfg)
                       (max_voxels cfg) (max_num_points cfg),
                     [gz + 1; gy; gx])).
  { unfold build_voxel_generator.
    rewrite Eg, (reversed_add_pad gx gy gz HX HY HZ). reflexivity. }
  split; [exact Eb|].
  intros modules Em. unfold init. rewrite Em, Eb. simpl.
  eexists. split; reflexivity.
Qed.

Lemma pad2_left_column (t : list (list Z)) (c : Z) :
  pad2 t 0 0 1 0 c = map (cons c) t.
Proof.
  unfold pad2. simpl. rewrite app_nil_r.
  apply map_ext. intros row. rewrite app_nil_r. reflexivity.
Qed.

(** C8.  The coordinate table that [voxelize] returns is the generator's
    table with a 0 put in front of every row; when the generator's rows
    are (Z, Y, X) triples every row has four entries, the first being 0
    and the other three the generator's triple. *)
Theorem voxelize_prepends_batch_index
        (self : PV_RCNN.t) (points : tensor2)
        (voxels : tensor3) (coordinates : list (list Z)) (occupancy : list Z) :
  generate (voxel_generator self) points = (voxels, coordinates, occupancy) ->
  Forall (fun row => length row = 3%nat) coordinates ->
  snd (voxelize self points) = map (cons 0) coordinates
  /\ length (snd (voxelize self points)) = length coordinates
  /\ Forall (fun row => length row = 4%nat
                        /\ nth 0 row 1 = 0
                        /\ In (skipn 1 row) coordinates)
            (snd (voxelize self points)).
Proof.
  intros Eg Hrows. unfold voxelize. rewrite Eg. simpl.
  rewrite pad2_left_column. split; [reflexivity|].
  split; [apply length_map|].
  apply Forall_forall. intros row Hin.
  apply in_map_iff in Hin. destruct Hin as [r [<- Hr]].
  rewrite Forall_forall in Hrows. simpl.
  rewrite (Hrows r Hr). auto.
Qed.

End Construction_Claims.

Section Sampling_Lemmas.
Import Pointnet2.

Lemma unselected_spec (n : nat) (selected : list nat) (k : nat) :
  In k (unselected n selected) <-> (k < n)%nat /\ ~ In k selected.
Proof.
  unfold unselected. rewrite filter_In, in_seq, negb_true_iff.
  split.
  - intros [Hk Hno]. split; [lia|]. intros Hin.
    assert (E : existsb (Nat.eqb k) selected = true).
    { apply existsb_exists. exists k. split; [exact Hin | apply Nat.eqb_refl]. }
    rewrite E in Hno. discriminate Hno.
  - intros [Hk Hno]. split; [lia|].
    destruct (existsb (Nat.eqb k) selected) eqn:E; [| reflexivity].
    exfalso. apply existsb_exists in E. destruct E as [x [Hx Ex]].
    apply Nat.eqb_eq in Ex. subst x. exact (Hno Hx).
Qed.

(** While fewer points are selected than the cloud has, some point is
    unselected. *)
Lemma unselected_nonempty (n : nat) (selected : list nat) :
  (length selected < n)%nat -> unselected n selected <> [].
Proof.
  intros Hlen Hnil.
  assert (Hall : incl (seq 0 n) selected).
  { intros k Hk. apply in_seq in Hk.
    destruct (in_dec Nat.eq_dec k selected) as [Hyes | Hno]; [exact Hyes|].
    exfalso.
    assert (Hin : In k (unselected n selected))
      by (apply unselected_spec; split; [lia | exact Hno]).
    rewrite Hnil in Hin. exact Hin. }
  pose proof (NoDup_incl_length (seq_NoDup n 0) Hall) as Hle.
  rewrite length_seq in Hle. lia.
Qed.

Lemma farthest_of_in (cloud : tensor2) (s0 : nat) (rest : list nat)
      (candidates : list nat) :
  forall best : nat,
    In (farthest_of cloud s0 rest best candidates) (best :: candidates).
Proof.
  induction candidates as [| k candidates IH]; intros best; simpl.
  - left. reflexivity.
  - destruct (Qlt_le_dec (min_dist2 cloud s0 rest best)
                         (min_dist2 cloud s0 rest k)).
    + destruct (IH k) as [E | Hin]; [right; left; exact E | right; right; exact Hin].
    + destruct (IH best) as [E | Hin]; [left; exact E | right; right; exact Hin].
Qed.

(** The greedy criterion: no candidate is farther from the selection than
    the one taken. *)
Lemma farthest_of_is_farthest (cloud : tensor2) (s0 : nat) (rest : list nat)
      (candidates : list nat) :
  forall (best k : nat),
    In k (best :: candidates) ->
    (min_dist2 cloud s0 rest k
     <= min_dist2 cloud s0 rest (farthest_of cloud s0 rest best candidates))%Q.
Proof.
  assert (Hmono : forall cands best,
             (min_dist2 cloud s0 rest best
              <= min_dist2 cloud s0 rest (farthest_of cloud s0 rest best cands))%Q).
  { induction cands as [| c cands IH]; intros best; simpl.
    - apply Qle_refl.
    - destruct (Qlt_le_dec (min_dist2 cloud s0 rest best)
                           (min_dist2 cloud s0 rest c)) as [Hlt | Hle].
      + eapply Qle_trans; [apply Qlt_le_weak; exact Hlt | apply IH].
      + apply IH. }
  induction candidates as [| c candidates IH]; intros best k Hin; simpl.
  - destruct Hin as [<- | []]. apply Qle_refl.
  - destruct (Qlt_le_dec (min_dist2 cloud s0 rest best)
                         (min_dist2 cloud s0 rest c)) as [Hlt | Hle].
    + destruct Hin as [<- | Hin].
      * eapply Qle_trans; [apply Qlt_le_weak; exact Hlt | apply Hmono].
      * apply IH. exact Hin.
    + destruct Hin as [<- | [<- | Hin]].
      * apply Hmono.
      * eapply Qle_trans; [exact Hle | apply Hmono].
      * apply IH. right. exact Hin.
Qed.

Lemma NoDup_snoc (l : list nat) (x : nat) :
  NoDup l -> ~ In x l -> NoDup (l ++ [x]).
Proof.
  intros Hl Hx. apply NoDup_app.
  - assumption.
  - constructor; [intros [] | constructor].
  - intros a Ha [<- | []]. apply Hx. assumption.
Qed.

(** The loop adds, at every step, an in-range index that was not selected
    before, as long as it is not asked for more indices than points. *)
Lemma fps_loop_spec (cloud : tensor2) (steps : nat) :
  forall (s0 : nat) (rest : list nat),
    NoDup (s0 :: rest) ->
    Forall (fun s => (s < length cloud)%nat) (s0 :: rest) ->
    (length (s0 :: rest) + steps <= length cloud)%nat ->
    length (fps_loop cloud steps s0 rest) = (length (s0 :: rest) + steps)%nat
    /\ NoDup (fps_loop cloud steps s0 rest)
    /\ Forall (fun s => (s < length cloud)%nat) (fps_loop cloud steps s0 rest).
Proof.
  induction steps as [| steps IH]; intros s0 rest Hnd Hr Hlen; simpl.
  - split; [lia|]. split; assumption.
  - destruct (unselected (length cloud) (s0 :: rest)) as [| k candidates] eqn:Eu.
    + exfalso. apply (unselected_nonempty (length cloud) (s0 :: rest));
        [simpl in *; lia | exact Eu].
    + pose proof (farthest_of_in cloud s0 rest candidates k) as Hin.
      rewrite <- Eu in Hin. apply unselected_spec in Hin.
      destruct Hin as [Hlt Hfresh].
      destruct (IH s0 (rest ++ [farthest_of cloud s0 rest k candidates]))
        as [Hl [Hn Hf]].
      * change (NoDup ((s0 :: rest)
                         ++ [farthest_of cloud s0 rest k candidates])).
        apply NoDup_snoc; assumption.
      * inversion Hr; subst. constructor; [assumption|].
        apply Forall_app. split; [assumption|].
        constructor; [exact Hlt | constructor].
      * simpl in *. rewrite length_app. simpl. lia.
      * split; [| split; assumption].
        rewrite Hl. simpl. rewrite length_app. simpl. lia.
Qed.

Lemma fps_enough (cloud : tensor2) (npoint : nat) :
  (npoint <= length cloud)%nat ->
  exists indices : list nat,
    fps cloud npoint = Ok indices
    /\ length indices = npoint
    /\ NoDup indices
    /\ Forall (fun s => (s < length cloud)%nat) indices.
Proof.
  intros Hle. unfold fps.
  replace (Nat.ltb (length cloud) npoint) with false
    by (symmetry; apply Nat.ltb_ge; exact Hle).
  eexists. split; [reflexivity|].
  destruct npoint as [| steps].
  - split; [reflexivity|]. split; constructor.
  - destruct (fps_loop_spec cloud steps 0%nat []) as [Hl [Hn Hr]].
    + constructor; [intros [] | constructor].
    + constructor; [lia | constructor].
    + simpl. lia.
    + split; [rewrite Hl; simpl; lia|]. split; assumption.
Qed.

Lemma fps_short (cloud : tensor2) (npoint : nat) :
  (length cloud < npoint)%nat -> fps cloud npoint = Err InsufficientDataError.
Proof.
  intros Hlt. unfold fps.
  replace (Nat.ltb (length cloud) npoint) with true
    by (symmetry; apply Nat.ltb_lt; exact Hlt).
  reflexivity.
Qed.

(** Gathering at in-range indices cannot fail. *)
Lemma gather_xyz_in_range (cloud : tensor2) (indices : list nat) :
  Forall (fun s => (s < length cloud)%nat) indices ->
  PV_RCNN.gather_xyz cloud indices
  = Ok (map (fun i => firstn 3 (point cloud i)) indices).
Proof.
  induction 1 as [| i indices Hi Hrest IH]; simpl; [reflexivity|].
  unfold PV_RCNN.subscript.
  rewrite (nth_error_nth' cloud [] Hi), IH. reflexivity.
Qed.

(** Sampling a cloud that has at least as many points as keypoints are
    asked for. *)
Lemma sample_keypoints_enough (self : PV_RCNN.t) (points : tensor2) :
  (n_keypoints (PV_RCNN.cfg self) <= length points)%nat ->
  exists indices : list nat,
    furthest_point_sample (Torch.unsqueeze0 points)
                          (n_keypoints (PV_RCNN.cfg self))
    = Ok [indices]
    /\ length indices = n_keypoints (PV_RCNN.cfg self)
    /\ NoDup indices
    /\ Forall (fun s => (s < length points)%nat) indices
    /\ PV_RCNN.sample_keypoints self points
       = Ok [map (fun i => firstn 3 (point points i)) indices].
Proof.
  intros Hle.
  destruct (fps_enough points (n_keypoints (PV_RCNN.cfg self)) Hle)
    as [indices [Ef [Hl [Hn Hr]]]].
  exists indices.
  assert (Es : furthest_point_sample (Torch.unsqueeze0 points)
                                     (n_keypoints (PV_RCNN.cfg self))
               = Ok [indices]).
  { unfold Torch.unsqueeze0. simpl. rewrite Ef. reflexivity. }
  split; [exact Es|]. split; [exact Hl|]. split; [exact Hn|].
  split; [exact Hr|].
  unfold PV_RCNN.sample_keypoints. rewrite Es. simpl.
  rewrite (gather_xyz_in_range points indices Hr). reflexivity.
Qed.

Lemma sample_keypoints_short (self : PV_RCNN.t) (points : tensor2) :
  (length points < n_keypoints (PV_RCNN.cfg self))%nat ->
  PV_RCNN.sample_keypoints self points = Err InsufficientDataError.
Proof.
  intros Hlt. unfold PV_RCNN.sample_keypoints, Torch.unsqueeze0. simpl.
  rewrite (fps_short points _ Hlt). reflexivity.
Qed.

End Sampling_Lemmas.

Section Forward_Lemmas.
Import Torch PV_RCNN.
Context {rng : Type}.
Variable lib : Library rng.

Lemma split_3_1_rows (points : tensor2) :
  Forall (fun row => length row = 4%nat) points ->
  split_3_1 points = Ok (map (firstn 3) points, map (skipn 3) points).
Proof.
  intros H. unfold split_3_1.
  replace (forallb (fun row => Nat.eqb (length row) 4) points) with true;
    [reflexivity|].
  symmetry. apply forallb_forall. intros row Hin.
  rewrite Forall_forall in H. rewrite (H row Hin). reflexivity.
Qed.

(** The body of [fused_features] once its fallible steps have succeeded. *)
Lemma fused_features_unfold
      (self : PV_RCNN.t) (points : tensor2)
      (voxels : tensor3) (coordinates : list (list Z)) (occupancy : list Z)
      (cnn_out : list (tensor2 * tensor2)) (volume : SparseConvTensor)
      (keypoints bev : tensor3) :
  generate (voxel_generator self) points = (voxels, coordinates, occupancy) ->
  cnn_forward (cnn self) (vfe self voxels occupancy)
              (Numpy.pad2 coordinates 0 0 1 0 0%Z) 1
  = (cnn_out, volume) ->
  Forall (fun row => length row = 4%nat) points ->
  sample_keypoints self points = Ok keypoints ->
  BEV_FeatureGatherer.forward (interp lib) (bev_gatherer self)
                              (dense volume) keypoints = Ok bev ->
  fused_features lib self points
  = Ok (keypoints,
        cat_dim1
          (pnet_forward self
             ((map (firstn 3) points, map (skipn 3) points) :: cnn_out)
             keypoints
           ++ [bev])).
Proof.
  intros Eg Ec Hrows Es Eb. unfold fused_features, voxelize.
  rewrite Eg, Ec, (split_3_1_rows points Hrows). simpl.
  rewrite Es. simpl. rewrite Eb. reflexivity.
Qed.

(** The gatherer on a unit batch: one sampled row per channel of the
    flattened volume. *)
Lemma bev_forward_unit (kernel : tensor2 -> Q -> Q -> Q)
      (self : BEV_FeatureGatherer.t) (v : tensor4) (k : tensor2) :
  strides (BEV_FeatureGatherer.cfg self) <> [] ->
  exists channels : tensor2,
    BEV_FeatureGatherer.forward kernel self [v] [k] = Ok [channels]
    /\ length channels = length (concat v).
Proof.
  intros Hs. unfold BEV_FeatureGatherer.forward,
    BEV_FeatureGatherer.compute_bev_indices,
    BEV_FeatureGatherer.fractional_bev_indices,
    BEV_FeatureGatherer.last_stride.
  destruct (rev (strides (BEV_FeatureGatherer.cfg self))) as [| s l] eqn:E.
  - exfalso. apply Hs. rewrite <- (rev_involutive (strides _)), E. reflexivity.
  - simpl. eexists. split; [reflexivity|].
    rewrite !length_map. reflexivity.
Qed.

Lemma length_concat_uniform {A : Type} (v : list (list A)) (C D : nat) :
  length v = C -> Forall (fun c => length c = D) v ->
  length (concat v) = (C * D)%nat.
Proof.
  intros <- H. induction H as [| c v Hc Hv IH]; simpl; [reflexivity|].
  rewrite length_app, IH, Hc. reflexivity.
Qed.

(** [torch.cat(ts, dim=1)] on unit-batch tensors. *)
Lemma cat_dim1_unit (ts : list tensor3) :
  length (hd [] ts) = 1%nat ->
  cat_dim1 ts = [concat (map (fun t => nth 0 t []) ts)].
Proof. intros H. unfold cat_dim1. rewrite H. reflexivity. Qed.

Lemma nth_map_seq {A : Type} (f : nat -> A) (n b : nat) (d : A) :
  (b < n)%nat -> nth b (map f (seq 0 n)) d = f b.
Proof.
  intros Hb.
  rewrite (nth_indep _ d (f 0%nat)) by (rewrite length_map, length_seq; assumption).
  rewrite (map_nth f), seq_nth by assumption. reflexivity.
Qed.

Lemma cat_dim1_nth (ts : list tensor3) (b : nat) :
  (b < length (hd [] ts))%nat ->
  nth b (cat_dim1 ts) [] = concat (map (fun t => nth b t []) ts).
Proof.
  intros Hb. unfold cat_dim1.
  apply (nth_map_seq (fun b => concat (map (fun t => nth b t []) ts))).
  assumption.
Qed.

Lemma pnet_forward_zip_nth
      (cnn_out : list (tensor2 * tensor2)) (modules : list Pnet)
      (keypoints : tensor3) (i : nat)
      (xyz features : tensor2) (pnet : Pnet) :
  nth_error cnn_out i = Some (xyz, features) ->
  nth_error modules i = Some pnet ->
  nth_error (pnet_forward_zip cnn_out modules keypoints) i
  = Some (snd (pnet (unsqueeze0 xyz) (unsqueeze0 (transpose features))
                    keypoints)).
Proof.
  revert modules i.
  induction cnn_out as [| [x f] cnn_out IH]; intros modules i Hc Hm.
  - destruct i; discriminate Hc.
  - destruct modules as [| m modules]; [destruct i; discriminate Hm|].
    destruct i as [| i]; simpl in *.
    + injection Hc as -> ->. injection Hm as ->. reflexivity.
    + apply IH; assumption.
Qed.

Lemma pnet_forward_zip_length
      (cnn_out : list (tensor2 * tensor2)) (modules : list Pnet)
      (keypoints : tensor3) :
  length (pnet_forward_zip cnn_out modules keypoints)
  = Nat.min (length cnn_out) (length modules).
Proof.
  revert modules. induction cnn_out as [| [x f] cnn_out IH]; intros modules.
  - reflexivity.
  - destruct modules as [| m modules]; simpl; [reflexivity|].
    rewrite IH. reflexivity.
Qed.

End Forward_Lemmas.

Section Sampling_Claims.
Import Torch Pointnet2 PV_RCNN.

Example fixture_model_is_built : Fixture.net = Ok Fixture.model.
Proof. reflexivity. Qed.

(** C4.  On a cloud of N >= K points keypoint sampling returns exactly K
    keypoints, taken at K distinct in-range indices, each being the first
    three entries of the input point at its index; when N = K every
    input index is among the selected ones. *)
Theorem sample_keypoints_distinct_indices
        (self : PV_RCNN.t) (points : tensor2) :
  (n_keypoints (cfg self) <= length points)%nat ->
  exists indices : list nat,
    furthest_point_sample (unsqueeze0 points) (n_keypoints (cfg self))
    = Ok [indices]
    /\ sample_keypoints self points
       = Ok [map (fun i => firstn 3 (point points i)) indices]
    /\ length indices = n_keypoints (cfg self)
    /\ NoDup indices
    /\ Forall (fun i => (i < length points)%nat) indices
    /\ (length points = n_keypoints (cfg self) ->
        forall i, (i < length points)%nat -> In i indices).
Proof.
  intros Hle.
  destruct (sample_keypoints_enough self points Hle)
    as [indices [Es [Hl [Hn [Hr Hk]]]]].
  exists indices.
  split; [exact Es|]. split; [exact Hk|]. split; [exact Hl|].
  split; [exact Hn|]. split; [exact Hr|].
  intros EN i Hi.
  apply (NoDup_length_incl Hn (l' := seq 0 (length points))).
  - rewrite length_seq, Hl. lia.
  - intros j Hj. rewrite Forall_forall in Hr. apply in_seq.
    specialize (Hr j Hj). lia.
  - apply in_seq. lia.
Qed.

(** Two input points at the same place and two keypoints: both indices
    are selected. *)
Lemma sample_keypoints_distinct_indices_witness :
  exists indices : list nat,
    furthest_point_sample (unsqueeze0 Fixture.coincident_cloud)
                          (n_keypoints (cfg Fixture.model))
    = Ok [indices]
    /\ sample_keypoints Fixture.model Fixture.coincident_cloud
       = Ok [map (fun i => firstn 3 (point Fixture.coincident_cloud i)) indices]
    /\ length indices = n_keypoints (cfg Fixture.model)
    /\ NoDup indices
    /\ Forall (fun i => (i < length Fixture.coincident_cloud)%nat) indices
    /\ (length Fixture.coincident_cloud = n_keypoints (cfg Fixture.model) ->
        forall i, (i < length Fixture.coincident_cloud)%nat -> In i indices).
Proof.
  apply (sample_keypoints_distinct_indices Fixture.model
           Fixture.coincident_cloud).
  simpl. lia.
Defined.

Example coincident_points_are_both_selected :
  furthest_point_sample (unsqueeze0 Fixture.coincident_cloud) 2
  = Ok [[0; 1]%nat].
Proof. reflexivity. Qed.

End Sampling_Claims.

Section Forward_Claims.
Import Torch Pointnet2 PV_RCNN.
Context {rng : Type}.
Variable lib : Library rng.

Lemma forward_unfold (self : PV_RCNN.t) (g g' : rng) (points : tensor2)
      (keypoints features : tensor3) (u : tensor2) :
  fused_features lib self points = Ok (keypoints, features) ->
  rand lib g 25 7 = (u, g') ->
  forward lib self g points
  = Ok (RoiGridPool.forward (roi_grid_pool self)
          {| RoiGridPool.tensor := scale 20 u |} keypoints features,
        g').
Proof.
  intros Ef Er. unfold forward, draw_proposals.
  rewrite Ef. simpl. rewrite Er. reflexivity.
Qed.

(** C5.  A cloud with fewer points than [cfg.n_keypoints] is rejected:
    the sampler refuses it, [sample_keypoints] passes the error on and
    returns no keypoints at all, padded or not, and the forward pass
    ends in an error, which is the sampler's whenever the points have
    four columns. *)
Theorem short_cloud_is_rejected
        (self : PV_RCNN.t) (g : rng) (points : tensor2) :
  (length points < n_keypoints (cfg self))%nat ->
  sample_keypoints self points = Err InsufficientDataError
  /\ (forall keypoints : tensor3,
        sample_keypoints self points <> Ok keypoints)
  /\ (exists e : error,
        fused_features lib self points = Err e
        /\ forward lib self g points = Err e)
  /\ (Forall (fun row => length row = 4%nat) points ->
      forward lib self g points = Err InsufficientDataError).
Proof.
  intros Hlt.
  pose proof (sample_keypoints_short self points Hlt) as Es.
  split; [exact Es|]. split.
  { intros keypoints E. rewrite Es in E. discriminate E. }
  assert (Hf : forall raw, split_3_1 points = Ok raw ->
                 fused_features lib self points = Err InsufficientDataError).
  { intros raw Er. unfold fused_features, voxelize.
    destruct (generate (voxel_generator self) points) as [[voxels coords] occ].
    destruct (cnn_forward (cnn self) (vfe self voxels occ)
                          (Numpy.pad2 coords 0 0 1 0 0%Z) 1) as [cnn_out vol].
    rewrite Er. simpl. rewrite Es. reflexivity. }
  split.
  - destruct (split_3_1 points) as [raw | e] eqn:Er.
    + exists InsufficientDataError.
      pose proof (Hf raw eq_refl) as Ef. split; [exact Ef|].
      unfold forward. rewrite Ef. reflexivity.
    + exists e.
      assert (Ef : fused_features lib self points = Err e).
      { unfold fused_features, voxelize.
        destruct (generate (voxel_generator self) points)
          as [[voxels coords] occ].
        destruct (cnn_forward (cnn self) (vfe self voxels occ)
                              (Numpy.pad2 coords 0 0 1 0 0%Z) 1)
          as [cnn_out vol].
        rewrite Er. reflexivity. }
      split; [exact Ef|]. unfold forward. rewrite Ef. reflexivity.
  - intros Hrows. unfold forward.
    rewrite (Hf _ (split_3_1_rows points Hrows)). reflexivity.
Qed.

(** C9.  The fused features are the concatenation, along the channel
    axis, of the outputs of the set-abstraction modules followed by the
    BEV features.  The modules are applied, in order, to the list of
    scales whose first entry is the raw cloud split into its first three
    columns (xyz) and its fourth column (one scalar feature), and whose
    other entries are the backbone's per-scale outputs in their order;
    module i receives scale i with a unit batch axis and channel-major
    features, and every scale has its module when there are at least as
    many modules as scales. *)
Theorem fused_features_scale_order
        (self : PV_RCNN.t) (points : tensor2)
        (voxels : tensor3) (coordinates : list (list Z)) (occupancy : list Z)
        (cnn_out : list (tensor2 * tensor2)) (volume : SparseConvTensor)
        (keypoints bev : tensor3) :
  generate (voxel_generator self) points = (voxels, coordinates, occupancy) ->
  cnn_forward (cnn self) (vfe self voxels occupancy)
              (Numpy.pad2 coordinates 0 0 1 0 0%Z) 1
  = (cnn_out, volume) ->
  Forall (fun row => length row = 4%nat) points ->
  sample_keypoints self points = Ok keypoints ->
  BEV_FeatureGatherer.forward (interp lib) (bev_gatherer self)
                              (dense volume) keypoints = Ok bev ->
  let scales := (map (firstn 3) points, map (skipn 3) points) :: cnn_out in
  let pnet_out := pnet_forward self scales keypoints in
  exists features : tensor3,
    fused_features lib self points = Ok (keypoints, features)
    /\ Forall (fun row => length row = 3%nat) (map (firstn 3) points)
    /\ Forall (fun row => length row = 1%nat) (map (skipn 3) points)
    /\ length pnet_out = Nat.min (length scales) (length (pnets self))
    /\ (forall i xyz f pnet,
           nth_error scales i = Some (xyz, f) ->
           nth_error (pnets self) i = Some pnet ->
           nth_error pnet_out i
           = Some (snd (pnet (unsqueeze0 xyz) (unsqueeze0 (transpose f))
                             keypoints)))
    /\ (forall b, (b < length (hd [] (pnet_out ++ [bev])))%nat ->
           nth b features []
           = concat (map (fun t => nth b t []) pnet_out) ++ nth b bev []).
Proof.
  intros Eg Ec Hrows Es Eb scales pnet_out.
  exists (cat_dim1 (pnet_out ++ [bev])).
  split; [apply (fused_features_unfold lib self points voxels coordinates
                   occupancy cnn_out volume keypoints bev); assumption|].
  split.
  { apply Forall_forall. intros row Hin. apply in_map_iff in Hin.
    destruct Hin as [r [<- Hr]]. rewrite Forall_forall in Hrows.
    rewrite length_firstn, (Hrows r Hr). reflexivity. }
  split.
  { apply Forall_forall. intros row Hin. apply in_map_iff in Hin.
    destruct Hin as [r [<- Hr]]. rewrite Forall_forall in Hrows.
    rewrite length_skipn, (Hrows r Hr). reflexivity. }
  split; [apply pnet_forward_zip_length|].
  split.
  { intros i xyz f pnet Hi Hp. unfold pnet_out, pnet_forward.
    apply pnet_forward_zip_nth; assumption. }
  intros b Hb. rewrite cat_dim1_nth by assumption.
  rewrite map_app, concat_app. simpl. rewrite app_nil_r. reflexivity.
Qed.

Lemma init_fields (c : PvrcnnConfig) (self : PV_RCNN.t) :
  init lib c = Ok self ->
  build_pointnets lib c = Ok (pnets self)
  /\ cfg self = c
  /\ BEV_FeatureGatherer.cfg (bev_gatherer self) = c.
Proof.
  unfold init. destruct (build_pointnets lib c) as [modules | e]; simpl;
    [| discriminate].
  destruct (build_voxel_generator lib c) as [[vg shape] | e]; simpl;
    [| discriminate].
  intros E. injection E as <-. simpl. repeat split.
Qed.

(** Every module that [build_pointnets] returns was built from the
    channel lists at its position. *)
Lemma build_pointnets_from_built (c : PvrcnnConfig)
      (rest : list (list (list nat))) :
  forall (i : nat) (modules : list Pnet),
    build_pointnets_from lib c i rest = Ok modules ->
    Forall2 (built_from lib) modules rest.
Proof.
  induction rest as [| m rest IH]; intros i modules E; simpl in E.
  - injection E as <-. constructor.
  - destruct (subscript (radii c) i) as [r | e]; simpl in E; [| discriminate].
    destruct (subscript (nsamples c) i) as [ns | e]; simpl in E;
      [| discriminate].
    destruct (build_pointnets_from lib c (S i) rest) as [tail | e] eqn:Et;
      simpl in E; [| discriminate].
    injection E as <-. constructor; [| apply (IH (S i)); assumption].
    exists r, ns. reflexivity.
Qed.

Lemma pnet_forward_zip_channels (modules : list Pnet)
      (channel_lists : list (list (list nat))) (keypoints : tensor3) :
  pnet_contract lib ->
  length keypoints = 1%nat ->
  Forall2 (built_from lib) modules channel_lists ->
  forall scales : list (tensor2 * tensor2),
    Forall (fun t => length t = 1%nat)
           (pnet_forward_zip scales modules keypoints)
    /\ list_sum (map (fun t => length (nth 0 t []))
                     (pnet_forward_zip scales modules keypoints))
       = list_sum (map out_channels (firstn (length scales) channel_lists)).
Proof.
  intros Hc Hk Hb. induction Hb as [| pnet m modules ms Hpm Hrest IH];
    intros scales.
  - destruct scales as [| [x f] scales]; simpl; split; constructor.
  - destruct scales as [| [x f] scales]; simpl; [split; constructor|].
    destruct (IH scales) as [Hunit Hsum].
    destruct Hpm as [r [ns ->]].
    destruct (Hc (-1)%Z r ns m true (unsqueeze0 x)
                 (unsqueeze0 (transpose f)) keypoints) as [Hlen Hch].
    simpl in Hlen, Hch. rewrite Hk in Hlen. split.
    + constructor; assumption.
    + rewrite Hsum. f_equal.
      destruct (snd (new_PointnetSAModuleMSG lib (-1) r ns m true
                       (unsqueeze0 x) (unsqueeze0 (transpose f)) keypoints))
        as [| b tl]; [discriminate Hlen|].
      inversion Hch; subst. simpl. assumption.
Qed.

(** C3.  For a network built by [init] from any configuration, with
    set-abstraction modules that honour their channel contract, a cloud
    of at least [cfg.n_keypoints] four-column points and a dense volume
    of shape
    (1, C, D, H, W): the flattened volume has C * D channels, the BEV
    features have C * D channels, and the fused descriptor has as many
    channels as the configured channel counts of the scales processed
    (the raw cloud and the backbone scales) sum to, plus C * D. *)
Theorem fused_channel_count
        (c : PvrcnnConfig) (self : PV_RCNN.t) (points : tensor2)
        (voxels : tensor3) (coordinates : list (list Z)) (occupancy : list Z)
        (cnn_out : list (tensor2 * tensor2)) (volume : SparseConvTensor)
        (v : tensor4) (C D : nat) :
  init lib c = Ok self ->
  pnet_contract lib ->
  (n_keypoints c <= length points)%nat ->
  Forall (fun row => length row = 4%nat) points ->
  strides c <> [] ->
  generate (voxel_generator self) points = (voxels, coordinates, occupancy) ->
  cnn_forward (cnn self) (vfe self voxels occupancy)
              (Numpy.pad2 coordinates 0 0 1 0 0%Z) 1
  = (cnn_out, volume) ->
  dense volume = [v] -> length v = C -> Forall (fun ch => length ch = D) v ->
  exists (keypoints : tensor3) (bev descriptor : tensor2),
    length (hd [] (view_merge_CD (dense volume))) = (C * D)%nat
    /\ BEV_FeatureGatherer.forward (interp lib) (bev_gatherer self)
                                   (dense volume) keypoints = Ok [bev]
    /\ length bev = (C * D)%nat
    /\ fused_features lib self points = Ok (keypoints, [descriptor])
    /\ length descriptor
       = (list_sum (map out_channels
                        (firstn (S (length cnn_out)) (mlps c)))
          + C * D)%nat.
Proof.
  intros Ei Hc Hk Hrows Hs Eg Ec Ev HC HD.
  destruct (init_fields c self Ei) as [Eb [Ecfg Ebev]].
  rewrite <- Ecfg in Hk.
  destruct (sample_keypoints_enough self points Hk)
    as [indices [_ [_ [_ [_ Es]]]]].
  set (kp := map (fun i => firstn 3 (point points i)) indices) in *.
  assert (Hs' : strides (BEV_FeatureGatherer.cfg (bev_gatherer self)) <> [])
    by (rewrite Ebev; assumption).
  destruct (bev_forward_unit (interp lib) (bev_gatherer self) v kp Hs')
    as [bev [Ef Hl]].
  rewrite (length_concat_uniform v C D HC HD) in Hl.
  rewrite <- Ev in Ef.
  pose proof (fused_features_unfold lib self points voxels coordinates
                occupancy cnn_out volume [kp] [bev] Eg Ec Hrows Es Ef) as Efu.
  pose proof (build_pointnets_from_built c (mlps c) 0 (pnets self) Eb) as Hbuilt.
  destruct (pnet_forward_zip_channels (pnets self) (mlps c) [kp] Hc
              eq_refl Hbuilt
              ((map (firstn 3) points, map (skipn 3) points) :: cnn_out))
    as [Hunit Hsum].
  fold (pnet_forward self
          ((map (firstn 3) points, map (skipn 3) points) :: cnn_out) [kp])
    in Hunit, Hsum.
  set (outs := pnet_forward self
                 ((map (firstn 3) points, map (skipn 3) points) :: cnn_out)
                 [kp]) in *.
  assert (Hhd : length (hd [] (outs ++ [[bev]])) = 1%nat).
  { destruct outs as [| o outs']; [reflexivity|].
    inversion Hunit; subst. assumption. }
  exists [kp], bev, (concat (map (fun t => nth 0 t []) (outs ++ [[bev]]))).
  split.
  { rewrite Ev. simpl. apply length_concat_uniform; assumption. }
  split; [assumption|]. split; [assumption|].
  split.
  { rewrite Efu. do 2 f_equal. apply cat_dim1_unit. exact Hhd. }
  rewrite length_concat, map_map, map_app, list_sum_app.
  apply (f_equal2 Nat.add); [exact Hsum | simpl; lia].
Qed.

Lemma unit_sample_scaled (rows cols : nat) (u : tensor2) :
  is_unit_sample rows cols u = true ->
  length (scale 20 u) = rows
  /\ Forall (fun box => length box = cols
                        /\ Forall (fun x => (0 <= x /\ x < 20)%Q) box)
            (scale 20 u).
Proof.
  unfold is_unit_sample, scale. intros H.
  apply andb_true_iff in H. destruct H as [Hr Hall].
  apply Nat.eqb_eq in Hr. split; [rewrite length_map; assumption|].
  rewrite forallb_forall in Hall.
  apply Forall_forall. intros box Hin. apply in_map_iff in Hin.
  destruct Hin as [row [<- Hrow]].
  specialize (Hall row Hrow). apply andb_true_iff in Hall.
  destruct Hall as [Hc Hx]. apply Nat.eqb_eq in Hc.
  split; [rewrite length_map; assumption|].
  rewrite forallb_forall in Hx.
  apply Forall_forall. intros y Hy. apply in_map_iff in Hy.
  destruct Hy as [x [<- Hxin]].
  specialize (Hx x Hxin). apply andb_true_iff in Hx.
  destruct Hx as [H0 H1]. apply Qle_bool_iff in H0.
  apply negb_true_iff in H1.
  assert (Hlt : (x < 1)%Q).
  { apply Qnot_le_lt. intros Hle. apply Qle_bool_iff in Hle.
    rewrite Hle in H1. discriminate. }
  split; lra.
Qed.

(** C10.  [forward] takes the point cloud and the state of the random
    generator, and no proposals.  Whenever the fused features are
    computed, it draws one 25 x 7 sample from the generator, scales it
    by 20 and pools over exactly these boxes: 25 boxes of 7 values in
    [0, 20), and 25 entries in the result.  The result depends on the
    generator state: on the same network and the same cloud, two states
    give pooled features that differ. *)
Theorem forward_draws_its_own_proposals :
  (forall (self : PV_RCNN.t) (g g' : rng) (points : tensor2)
          (keypoints features : tensor3) (u : tensor2),
      fused_features lib self points = Ok (keypoints, features) ->
      rand lib g 25 7 = (u, g') ->
      is_unit_sample 25 7 u = true ->
      let proposals := {| RoiGridPool.tensor := scale 20 u |} in
      let pooled := RoiGridPool.forward (roi_grid_pool self) proposals
                                        keypoints features in
      forward lib self g points = Ok (pooled, g')
      /\ length (RoiGridPool.tensor proposals) = 25%nat
      /\ Forall (fun box => length box = 7%nat
                            /\ Forall (fun x => (0 <= x /\ x < 20)%Q) box)
                (RoiGridPool.tensor proposals)
      /\ length pooled = 25%nat)
  /\ (exists (pooled1 pooled2 : tensor3) (g1 g2 : Z),
        forward Fixture.lib Fixture.model 1%Z Fixture.cloud
        = Ok (pooled1, g1)
        /\ forward Fixture.lib Fixture.model 2%Z Fixture.cloud
           = Ok (pooled2, g2)
        /\ ~ teq3 pooled1 pooled2).
Proof.
  split.
  - intros self g g' points keypoints features u Ef Er Hu proposals pooled.
    destruct (unit_sample_scaled 25 7 u Hu) as [Hlen Hboxes].
    split; [apply forward_unfold; assumption|].
    split; [assumption|]. split; [assumption|].
    unfold pooled, RoiGridPool.forward. rewrite length_map. assumption.
  - eexists. eexists. eexists. eexists.
    split; [vm_compute; reflexivity|].
    split; [vm_compute; reflexivity|].
    intros H.
    inversion H as [| b1 b2 t1 t2 Hb _]; subst.
    inversion Hb as [| p1 p2 r1 r2 Hp _]; subst.
    inversion Hp as [| x1 x2 q1 q2 Hx _]; subst.
    discriminate Hx.
Qed.

End Forward_Claims.

Section Fixture_Runs.
Import Torch Pointnet2 PV_RCNN.

Lemma fixture_pnet_contract : pnet_contract Fixture.lib.
Proof.
  intros npoint r ns m ux xyz f new_xyz. simpl. split.
  - apply length_map.
  - apply Forall_forall. intros b Hin. apply in_map_iff in Hin.
    destruct Hin as [k [<- _]]. apply repeat_length.
Qed.

Lemma grid_shape_reversed_and_padded_witness :
  build_voxel_generator Fixture.lib Fixture.cfg
  = Ok (PV_RCNN.voxel_generator Fixture.model, [2 + 1; 8; 8]%Z)
  /\ forall modules : list Pnet,
       build_pointnets Fixture.lib Fixture.cfg = Ok modules ->
       exists self : PV_RCNN.t,
         init Fixture.lib Fixture.cfg = Ok self
         /\ cnn self = new_SparseCNN Fixture.lib [2 + 1; 8; 8]%Z Fixture.cfg.
Proof.
  apply (grid_shape_reversed_and_padded Fixture.lib Fixture.cfg 8 8 2).
  - reflexivity.
  - unfold Numpy.int64_range. lia.
  - unfold Numpy.int64_range. lia.
  - lia.
Defined.

Lemma voxelize_prepends_batch_index_witness :
  snd (voxelize Fixture.model Fixture.cloud)
  = map (cons 0%Z) [[0; 0; 0]; [1; 2; 6]; [0; 6; 2]]%Z
  /\ length (snd (voxelize Fixture.model Fixture.cloud)) = 3%nat
  /\ Forall (fun row => length row = 4%nat
                        /\ nth 0 row 1%Z = 0%Z
                        /\ In (skipn 1 row) [[0; 0; 0]; [1; 2; 6]; [0; 6; 2]]%Z)
            (snd (voxelize Fixture.model Fixture.cloud)).
Proof.
  apply (voxelize_prepends_batch_index Fixture.model Fixture.cloud
           Fixture.run_voxels [[0; 0; 0]; [1; 2; 6]; [0; 6; 2]]%Z
           Fixture.run_occupancy).
  - reflexivity.
  - repeat constructor.
Defined.

Lemma fused_channel_count_witness :
  exists (keypoints : tensor3) (descriptor : tensor2),
    fused_features Fixture.lib Fixture.model Fixture.cloud
    = Ok (keypoints, [descriptor])
    /\ length descriptor = ((3 + 1) + (2 + 1) + 2 * 2)%nat.
Proof.
  destruct (fused_channel_count Fixture.lib Fixture.cfg Fixture.model
              Fixture.cloud Fixture.run_voxels Fixture.run_coordinates
              Fixture.run_occupancy Fixture.run_cnn_out Fixture.run_volume
              Fixture.run_dense 2 2
              eq_refl fixture_pnet_contract
              ltac:(simpl; lia) ltac:(repeat constructor)
              ltac:(discriminate) eq_refl eq_refl eq_refl eq_refl
              ltac:(repeat constructor))
    as [k [bev [d [_ [_ [_ [Hf Hl]]]]]]].
  exists k, d. split; [exact Hf | exact Hl].
Defined.

(** A single input point and two keypoints. *)
Lemma short_cloud_is_rejected_witness :
  sample_keypoints Fixture.model Fixture.single_point
  = Err InsufficientDataError
  /\ forward Fixture.lib Fixture.model 1%Z Fixture.single_point
     = Err InsufficientDataError.
Proof.
  destruct (short_cloud_is_rejected Fixture.lib Fixture.model 1%Z
              Fixture.single_point ltac:(simpl; lia))
    as [Hs [_ [_ Hf]]].
  split; [exact Hs|]. apply Hf. repeat constructor.
Defined.

Lemma fused_features_scale_order_witness :
  exists features : tensor3,
    fused_features Fixture.lib Fixture.model Fixture.cloud
    = Ok (Fixture.run_keypoints, features)
    /\ nth 0 features []
       = concat (map (fun t => nth 0 t [])
                     (pnet_forward Fixture.model
                        ((map (firstn 3) Fixture.cloud,
                          map (skipn 3) Fixture.cloud) :: Fixture.run_cnn_out)
                        Fixture.run_keypoints))
         ++ nth 0 Fixture.run_bev [].
Proof.
  destruct (fused_features_scale_order Fixture.lib Fixture.model
              Fixture.cloud Fixture.run_voxels Fixture.run_coordinates
              Fixture.run_occupancy Fixture.run_cnn_out Fixture.run_volume
              Fixture.run_keypoints Fixture.run_bev
              eq_refl eq_refl ltac:(repeat constructor) eq_refl eq_refl)
    as [features [Hf [_ [_ [_ [_ Hcat]]]]]].
  exists features. split; [exact Hf|].
  apply Hcat. simpl. lia.
Defined.

Lemma forward_draws_its_own_proposals_witness :
  exists pooled : tensor3,
    forward Fixture.lib Fixture.model 1%Z Fixture.cloud
    = Ok (pooled, snd (rand Fixture.lib 1%Z 25 7))
    /\ length pooled = 25%nat.
Proof.
  destruct (proj1 (forward_draws_its_own_proposals Fixture.lib)
              Fixture.model 1%Z (snd (rand Fixture.lib 1%Z 25 7))
              Fixture.cloud
              Fixture.run_keypoints
              (cat_dim1
                 (pnet_forward Fixture.model
                    ((map (firstn 3) Fixture.cloud,
                      map (skipn 3) Fixture.cloud) :: Fixture.run_cnn_out)
                    Fixture.run_keypoints
                  ++ [Fixture.run_bev]))
              (fst (rand Fixture.lib 1%Z 25 7))
              eq_refl ltac:(vm_compute; reflexivity)
              ltac:(vm_compute; reflexivity))
    as [Hf [_ [_ Hl]]].
  eexists. split; [exact Hf | exact Hl].
Defined.

End Fixture_Runs.

(** * Further properties of the construction *)

Section Construction_Properties.
Import Torch PV_RCNN.
Context {rng : Type}.
Variable lib : Library rng.

Lemma subscript_in_range {A : Type} (l : list A) (i : nat) :
  (i < length l)%nat -> exists a, nth_error l i = Some a /\ subscript l i = Ok a.
Proof.
  intros Hi. unfold subscript.
  destruct (nth_error l i) as [a |] eqn:E.
  - exists a. split; reflexivity.
  - apply nth_error_None in E. lia.
Qed.

Lemma subscript_out_of_range {A : Type} (l : list A) (i : nat) :
  (length l <= i)%nat -> subscript l i = Err IndexError.
Proof.
  intros Hi. unfold subscript.
  apply nth_error_None in Hi. rewrite Hi. reflexivity.
Qed.

Lemma build_pointnets_from_ok (c : PvrcnnConfig) (rest : list (list (list nat))) :
  forall i : nat,
    (i + length rest <= length (radii c))%nat ->
    (i + length rest <= length (nsamples c))%nat ->
    exists modules : list Pnet,
      build_pointnets_from lib c i rest = Ok modules
      /\ length modules = length rest
      /\ forall j m,
           nth_error rest j = Some m ->
           exists r ns,
             nth_error (radii c) (i + j) = Some r
             /\ nth_error (nsamples c) (i + j) = Some ns
             /\ nth_error modules j
                = Some (new_PointnetSAModuleMSG lib (-1)%Z r ns m true).
Proof.
  induction rest as [| m rest IH]; intros i Hr Hn; simpl in *.
  - exists []. split; [reflexivity|]. split; [reflexivity|].
    intros j m' E. destruct j; discriminate E.
  - destruct (subscript_in_range (radii c) i) as [r [Er Sr]]; [lia|].
    destruct (subscript_in_range (nsamples c) i) as [ns [En Sn]]; [lia|].
    destruct (IH (S i)) as [tail [Et [Hl Hnth]]]; [lia | lia |].
    rewrite Sr, Sn. simpl. rewrite Et. simpl.
    eexists. split; [reflexivity|]. split; [simpl; rewrite Hl; reflexivity|].
    intros j m' E. destruct j as [| j]; simpl in *.
    + injection E as <-. exists r, ns. rewrite Nat.add_0_r. auto.
    + destruct (Hnth j m' E) as [r' [ns' [Hr' [Hn' Hm']]]].
      exists r', ns'. replace (i + S j)%nat with (S i + j)%nat by lia. auto.
Qed.

Lemma build_pointnets_from_short (c : PvrcnnConfig)
      (rest : list (list (list nat))) :
  forall i : nat,
    (i <= length (radii c))%nat -> (i <= length (nsamples c))%nat ->
    (length (radii c) < i + length rest
     \/ length (nsamples c) < i + length rest)%nat ->
    build_pointnets_from lib c i rest = Err IndexError.
Proof.
  induction rest as [| m rest IH]; intros i Hr Hn Hshort; simpl in *; [lia|].
  destruct (Nat.lt_ge_cases i (length (radii c))) as [Hir | Hir].
  - destruct (subscript_in_range (radii c) i Hir) as [r [_ Sr]].
    rewrite Sr. simpl.
    destruct (Nat.lt_ge_cases i (length (nsamples c))) as [Hin | Hin].
    + destruct (subscript_in_range (nsamples c) i Hin) as [ns [_ Sn]].
      rewrite Sn. simpl. rewrite (IH (S i)); [reflexivity | lia | lia | lia].
    + rewrite (subscript_out_of_range (nsamples c) i Hin). reflexivity.
  - rewrite (subscript_out_of_range (radii c) i Hir). reflexivity.
Qed.

(** X1.  When [cfg.radii] and [cfg.nsamples] have at least as many entries
    as [cfg.mlps], [build_pointnets] returns one module per entry of
    [cfg.mlps], in order, the module at position i being constructed with
    npoint = -1, [cfg.radii[i]], [cfg.nsamples[i]], [cfg.mlps[i]] and
    use_xyz = True. *)
Theorem build_pointnets_one_module_per_scale (c : PvrcnnConfig) :
  (length (mlps c) <= length (radii c))%nat ->
  (length (mlps c) <= length (nsamples c))%nat ->
  exists modules : list Pnet,
    build_pointnets lib c = Ok modules
    /\ length modules = length (mlps c)
    /\ forall i m,
         nth_error (mlps c) i = Some m ->
         exists r ns,
           nth_error (radii c) i = Some r
           /\ nth_error (nsamples c) i = Some ns
           /\ nth_error modules i
              = Some (new_PointnetSAModuleMSG lib (-1)%Z r ns m true).
Proof.
  intros Hr Hn. unfold build_pointnets.
  exact (build_pointnets_from_ok c (mlps c) 0 Hr Hn).
Qed.

(** X2.  When [cfg.radii] or [cfg.nsamples] has fewer entries than
    [cfg.mlps], [build_pointnets] fails with an IndexError, and so does
    the construction of the network. *)
Theorem build_pointnets_short_config (c : PvrcnnConfig) :
  (length (radii c) < length (mlps c)
   \/ length (nsamples c) < length (mlps c))%nat ->
  build_pointnets lib c = Err IndexError
  /\ init lib c = Err IndexError.
Proof.
  intros Hshort.
  assert (E : build_pointnets lib c = Err IndexError).
  { unfold build_pointnets.
    apply build_pointnets_from_short; [lia | lia | exact Hshort]. }
  split; [exact E|]. unfold init. rewrite E. reflexivity.
Qed.

(** X3.  A network that [__init__] has built holds the configuration it was
    built from; its BEV gatherer has the same configuration and the voxel
    offset and base voxel size of its backbone; its voxel generator, VFE
    and ROI pooling are the ones constructed from the configuration; it
    has one set-abstraction module per entry of [cfg.mlps]; and its
    backbone was constructed with the grid shape computed from the
    generator's grid size. *)
Theorem init_wires_the_collaborators (c : PvrcnnConfig) (self : PV_RCNN.t) :
  init lib c = Ok self ->
  cfg self = c
  /\ BEV_FeatureGatherer.cfg (bev_gatherer self) = c
  /\ BEV_FeatureGatherer.voxel_offset (bev_gatherer self)
     = cnn_voxel_offset (cnn self)
  /\ BEV_FeatureGatherer.base_voxel_size (bev_gatherer self)
     = cnn_base_voxel_size (cnn self)
  /\ voxel_generator self
     = new_VoxelGenerator lib (voxel_size c) (grid_bounds c)
                          (max_voxels c) (max_num_points c)
  /\ vfe self = new_VoxelFeatureExtractor lib
  /\ roi_grid_pool self = new_RoiGridPool lib c
  /\ length (pnets self) = length (mlps c)
  /\ exists grid_shape : list Z,
       Numpy.add (Numpy.reversed (grid_size (voxel_generator self)))
                 [1; 0; 0]%Z
       = Ok grid_shape
       /\ cnn self = new_SparseCNN lib grid_shape c.
Proof.
  unfold init.
  destruct (build_pointnets lib c) as [modules | e] eqn:Em; simpl;
    [| discriminate].
  unfold build_voxel_generator.
  destruct (Numpy.add
              (Numpy.reversed
                 (grid_size (new_VoxelGenerator lib (voxel_size c)
                               (grid_bounds c) (max_voxels c)
                               (max_num_points c))))
              [1; 0; 0]%Z) as [shape | e] eqn:Es; simpl; [| discriminate].
  intros E. injection E as <-. simpl.
  do 7 (split; [reflexivity|]). split.
  - apply (Forall2_length (build_pointnets_from_built lib c (mlps c) 0 modules Em)).
  - exists shape. split; [exact Es | reflexivity].
Qed.

End Construction_Properties.

(** * Further properties of the BEV gatherer *)

Section BEV_More.
Import Torch BEV_FeatureGatherer.
Local Open Scope Q_scope.

Lemma map3_compose {A B C : Type} (f : B -> C) (g : A -> B)
      (t : list (list (list A))) :
  map (map (map f)) (map (map (map g)) t)
  = map (map (map (fun r => f (g r)))) t.
Proof.
  rewrite map_map. apply map_ext. intros a.
  rewrite map_map. apply map_ext. intros b.
  apply map_map.
Qed.

(** What lines 27 and 27-28 do to one row of the index tensor. *)
Lemma clamp_indices_rows (t : tensor4) (H W : nat) :
  clamp_indices t H W
  = map (map (map (fun row =>
                     zip_with Qmin (map (Qmax 0) row) (image_dims H W)))) t.
Proof.
  unfold clamp_indices, min_bcast, clamp_min, broadcast4, map4.
  apply map3_compose.
Qed.

Lemma normalize_rows (t : tensor4) (H W : nat) :
  normalize_grid_sample_indices t H W
  = map (map (map (fun row =>
                     map (fun x => 2 * x - 1)
                         (zip_with Qdiv
                            (zip_with Qmin (map (Qmax 0) row) (image_dims H W))
                            (map (fun d => d - 1) (image_dims H W)))))) t.
Proof.
  rewrite normalize_after_clamp, clamp_indices_rows.
  unfold broadcast4, map4. rewrite !map3_compose. reflexivity.
Qed.

Lemma Forall_map_impl {A B : Type} (P : A -> Prop) (R : B -> Prop)
      (f : A -> B) (l : list A) :
  (forall a, P a -> R (f a)) -> Forall P l -> Forall R (map f l).
Proof.
  intros Hf Hl. induction Hl as [| a l Ha Hl IH]; simpl; constructor; auto.
Qed.

Lemma rows_map3 (P R : tensor1 -> Prop) (f : tensor1 -> tensor1) (t : tensor4) :
  (forall row, P row -> R (f row)) ->
  Forall (Forall (Forall P)) t ->
  Forall (Forall (Forall R)) (map (map (map f)) t).
Proof.
  intros Hf Ht.
  apply (Forall_map_impl (Forall (Forall P))); [| exact Ht].
  intros a Ha. apply (Forall_map_impl (Forall P)); [| exact Ha].
  intros b Hb. apply (Forall_map_impl P); [| exact Hb].
  exact Hf.
Qed.

Lemma Forall2_map_same {A : Type} (P : A -> Prop) (R : A -> A -> Prop)
      (f : A -> A) (l : list A) :
  (forall a, P a -> R (f a) a) -> Forall P l -> Forall2 R (map f l) l.
Proof.
  intros Hf Hl. induction Hl as [| a l Ha Hl IH]; simpl; constructor; auto.
Qed.

Lemma axis_divisor_positive (n : nat) :
  (3 <= n)%nat -> 1 <= inject_Z (Z.of_nat n - 1) - 1.
Proof.
  intros Hn. pose proof (inject_nat_le 3 n Hn) as Hle.
  simpl in Hle. unfold inject_Z in Hle at 1.
  rewrite inject_pred. lra.
Qed.

Lemma axis_normalize_range (n : nat) (i : Q) :
  (3 <= n)%nat ->
  -1 <= axis_normalize n i
  /\ axis_normalize n i <= inject_Z (Z.of_nat n) / (inject_Z (Z.of_nat n) - 2).
Proof.
  intros Hn. unfold axis_normalize.
  pose proof (axis_divisor_positive n Hn) as Hd.
  set (top := inject_Z (Z.of_nat n - 1)) in *.
  set (c := Qmin (Qmax 0 i) top).
  assert (Htop : top == inject_Z (Z.of_nat n) - 1) by apply inject_pred.
  assert (Hc0 : 0 <= c).
  { apply Q.min_glb; [apply Q.le_max_l | lra]. }
  assert (Hc1 : c <= top) by apply Q.le_min_r.
  assert (Hq0 : 0 <= c / (top - 1)).
  { apply Qle_shift_div_l; lra. }
  assert (Hq1 : c / (top - 1) <= top / (top - 1)).
  { apply Qle_shift_div_r; [lra|].
    setoid_replace (top / (top - 1) * (top - 1)) with top
      by (field; lra).
    exact Hc1. }
  split; [lra|].
  setoid_replace (inject_Z (Z.of_nat n) / (inject_Z (Z.of_nat n) - 2))
    with (2 * (top / (top - 1)) - 1) by (rewrite Htop; field; lra).
  lra.
Qed.

Lemma axis_normalize_left (n : nat) (i : Q) :
  (3 <= n)%nat -> i <= 0 -> axis_normalize n i == -1.
Proof.
  intros Hn Hi. unfold axis_normalize.
  pose proof (axis_divisor_positive n Hn) as Hd.
  rewrite Q.max_l by exact Hi.
  rewrite Q.min_l by lra.
  field. lra.
Qed.

Lemma axis_normalize_right (n : nat) (i : Q) :
  (3 <= n)%nat -> inject_Z (Z.of_nat n - 1) <= i ->
  axis_normalize n i == inject_Z (Z.of_nat n) / (inject_Z (Z.of_nat n) - 2).
Proof.
  intros Hn Hi. unfold axis_normalize.
  pose proof (axis_divisor_positive n Hn) as Hd.
  rewrite Q.max_r by lra.
  rewrite Q.min_r by exact Hi.
  rewrite inject_pred. rewrite inject_pred in Hd. field. lra.
Qed.

(** X4.  For an image of at least 3 x 3 pixels, whatever the fractional
    indices are, every normalised index that
    [normalize_grid_sample_indices] returns has its first component in
    [-1, H / (H - 2)] and its second in [-1, W / (W - 2)]. *)
Theorem normalized_indices_range (t : tensor4) (H W : nat) :
  (3 <= H)%nat -> (3 <= W)%nat ->
  index_rows (fun _ _ => True) t ->
  index_rows
    (fun x y =>
       (-1 <= x /\ x <= inject_Z (Z.of_nat H) / (inject_Z (Z.of_nat H) - 2))
       /\ (-1 <= y /\ y <= inject_Z (Z.of_nat W) / (inject_Z (Z.of_nat W) - 2)))
    (normalize_grid_sample_indices t H W).
Proof.
  intros HH HW Ht. rewrite normalize_rows. unfold index_rows.
  apply (rows_map3 (fun row => exists x y : Q, row = [x; y] /\ True)); [| exact Ht].
  intros row [x [y [-> _]]].
  exists (axis_normalize H x), (axis_normalize W y).
  split; [reflexivity|].
  split; apply axis_normalize_range; assumption.
Qed.

(** X5.  For an image of at least 3 x 3 pixels, an index at or below 0 on
    both axes is normalised to (-1, -1), and an index at or beyond
    (H - 1, W - 1) to (H / (H - 2), W / (W - 2)): all keypoints beyond a
    border are sampled at the same place. *)
Theorem normalized_indices_saturate (H W : nat) (x y : Q) :
  (3 <= H)%nat -> (3 <= W)%nat ->
  (x <= 0 -> y <= 0 ->
   teq4 (normalize_grid_sample_indices (one_index x y) H W)
        (one_index (-1) (-1)))
  /\ (inject_Z (Z.of_nat H - 1) <= x -> inject_Z (Z.of_nat W - 1) <= y ->
      teq4 (normalize_grid_sample_indices (one_index x y) H W)
           (one_index
              (inject_Z (Z.of_nat H) / (inject_Z (Z.of_nat H) - 2))
              (inject_Z (Z.of_nat W) / (inject_Z (Z.of_nat W) - 2)))).
Proof.
  intros HH HW. rewrite normalize_one. split; intros Hx Hy.
  - apply teq4_one; apply axis_normalize_left; assumption.
  - apply teq4_one; apply axis_normalize_right; assumption.
Qed.

(** X6.  The clamp of line 27 leaves an index tensor as it is when every
    first component lies in [0, H - 1] and every second component in
    [0, W - 1]. *)
Theorem clamp_keeps_indices_inside (t : tensor4) (H W : nat) :
  index_rows
    (fun x y => (0 <= x /\ x <= inject_Z (Z.of_nat H - 1))
                /\ (0 <= y /\ y <= inject_Z (Z.of_nat W - 1))) t ->
  teq4 (clamp_indices t H W) t.
Proof.
  intros Ht. rewrite clamp_indices_rows. unfold teq4, index_rows in *.
  set (inside := fun row : tensor1 =>
         exists x y : Q, row = [x; y]
           /\ ((0 <= x /\ x <= inject_Z (Z.of_nat H - 1))
               /\ (0 <= y /\ y <= inject_Z (Z.of_nat W - 1)))) in *.
  apply (Forall2_map_same (Forall (Forall inside))); [| exact Ht].
  intros a Ha.
  apply (Forall2_map_same (Forall inside)); [| exact Ha].
  intros b Hb.
  apply (Forall2_map_same inside); [| exact Hb].
  intros row [x [y [-> [[Hx0 Hx1] [Hy0 Hy1]]]]]. simpl.
  constructor; [| constructor; [| constructor]].
  - rewrite Q.max_r by exact Hx0. apply Q.min_l. exact Hx1.
  - rewrite Q.max_r by exact Hy0. apply Q.min_l. exact Hy1.
Qed.

End BEV_More.

Section BEV_Forward_More.
Import Torch BEV_FeatureGatherer.
Local Open Scope Q_scope.

Lemma last_stride_empty (c : PvrcnnConfig) :
  strides c = [] -> last_stride c = Err IndexError.
Proof. intros E. unfold last_stride. rewrite E. reflexivity. Qed.

Lemma last_stride_nonempty (c : PvrcnnConfig) :
  strides c <> [] -> exists s : Q, last_stride c = Ok s.
Proof.
  intros Hs. unfold last_stride.
  destruct (rev (strides c)) as [| s l] eqn:E.
  - exfalso. apply Hs. rewrite <- (rev_involutive (strides c)), E. reflexivity.
  - exists s. reflexivity.
Qed.

(** X7.  With an empty [cfg.strides] the gatherer fails with an IndexError
    on every volume and every keypoint tensor, already when it computes
    the indices. *)
Theorem bev_gatherer_needs_a_stride
        (kernel : tensor2 -> Q -> Q -> Q) (self : BEV_FeatureGatherer.t)
        (volume : tensor5) (keypoint_xyz : tensor3) (H W : nat) :
  strides (cfg self) = [] ->
  compute_bev_indices self keypoint_xyz H W = Err IndexError
  /\ forward kernel self volume keypoint_xyz = Err IndexError.
Proof.
  intros E.
  assert (Ec : forall h w, compute_bev_indices self keypoint_xyz h w
                           = Err IndexError).
  { intros h w. unfold compute_bev_indices, fractional_bev_indices.
    rewrite (last_stride_empty (cfg self) E). reflexivity. }
  split; [apply Ec|].
  unfold forward. rewrite Ec. reflexivity.
Qed.

(** X8.  On a unit batch and with a non-empty stride list, the gatherer
    returns one row per channel of the flattened volume and in it one
    value per keypoint: the value of channel c at keypoint j is the
    interpolation kernel applied to image c of the flattened volume at
    the normalised index of keypoint j. *)
Theorem bev_gatherer_reads_each_channel
        (kernel : tensor2 -> Q -> Q -> Q) (self : BEV_FeatureGatherer.t)
        (v : tensor4) (k : tensor2) :
  strides (cfg self) <> [] ->
  exists rows : tensor2,
    compute_bev_indices self [k] (height [v]) (width [v]) = Ok [[rows]]
    /\ length rows = length k
    /\ forward kernel self [v] [k]
       = Ok [map (fun image =>
                    map (fun xy => kernel image (nth 0 xy 0) (nth 1 xy 0)) rows)
                 (concat v)].
Proof.
  intros Hs. destruct (last_stride_nonempty (cfg self) Hs) as [s Es].
  unfold forward, compute_bev_indices, fractional_bev_indices.
  rewrite Es. simpl.
  eexists. split; [reflexivity|]. split.
  - unfold take_cols. rewrite !length_map. reflexivity.
  - unfold squeeze2. simpl. rewrite map_map. reflexivity.
Qed.

(** X9.  With a non-empty stride list, a volume whose batch size differs
    from that of the keypoint tensor makes the gatherer fail with a
    RuntimeError (the batch sizes of image and grid must agree in
    [F.grid_sample]). *)
Theorem bev_gatherer_batch_mismatch
        (kernel : tensor2 -> Q -> Q -> Q) (self : BEV_FeatureGatherer.t)
        (volume : tensor5) (keypoint_xyz : tensor3) :
  strides (cfg self) <> [] ->
  length volume <> length keypoint_xyz ->
  forward kernel self volume keypoint_xyz = Err RuntimeError.
Proof.
  intros Hs Hne. destruct (last_stride_nonempty (cfg self) Hs) as [s Es].
  unfold forward, compute_bev_indices, fractional_bev_indices.
  rewrite Es. simpl. unfold grid_sample.
  replace (Nat.eqb _ _) with false; [reflexivity|].
  symmetry. apply Nat.eqb_neq.
  unfold view_merge_CD, normalize_grid_sample_indices, map4, broadcast4,
    min_bcast, clamp_min, map4, broadcast4.
  rewrite !length_map. exact Hne.
Qed.

End BEV_Forward_More.

(** * Further properties of sampling and of the forward pass *)

Section Forward_More.
Import Torch Pointnet2 PV_RCNN.
Context {rng : Type}.
Variable lib : Library rng.

(** X10.  On every cloud with at least [cfg.n_keypoints] points
    [sample_keypoints] returns a tensor with a leading batch axis of size
    one that holds exactly [cfg.n_keypoints] rows, each being the first
    three entries of some input point; the rows have three entries when
    every input point has at least three. *)
Theorem sample_keypoints_shape (self : PV_RCNN.t) (points : tensor2) :
  (n_keypoints (cfg self) <= length points)%nat ->
  exists rows : tensor2,
    sample_keypoints self points = Ok [rows]
    /\ length rows = n_keypoints (cfg self)
    /\ Forall (fun row => exists p, In p points /\ row = firstn 3 p) rows
    /\ (Forall (fun p => (3 <= length p)%nat) points ->
        Forall (fun row => length row = 3%nat) rows).
Proof.
  intros Hle.
  destruct (sample_keypoints_enough self points Hle)
    as [indices [_ [Hlen [_ [Hr Es]]]]].
  exists (map (fun i => firstn 3 (point points i)) indices).
  split; [exact Es|].
  split; [rewrite length_map; exact Hlen|].
  assert (Hin : forall i, In i indices -> In (point points i) points).
  { intros i Hi. rewrite Forall_forall in Hr. apply nth_In. apply Hr. exact Hi. }
  split.
  - apply Forall_forall. intros row Hrow. apply in_map_iff in Hrow.
    destruct Hrow as [i [<- Hi]]. exists (point points i). auto.
  - intros Hcols. apply Forall_forall. intros row Hrow.
    apply in_map_iff in Hrow. destruct Hrow as [i [<- Hi]].
    rewrite Forall_forall in Hcols. specialize (Hcols _ (Hin i Hi)).
    rewrite length_firstn. lia.
Qed.

Lemma pnet_forward_zip_surplus
      (scales extra : list (tensor2 * tensor2)) (keypoints : tensor3) :
  forall modules : list Pnet,
    (length modules <= length scales)%nat ->
    pnet_forward_zip (scales ++ extra) modules keypoints
    = pnet_forward_zip scales modules keypoints.
Proof.
  induction scales as [| [x f] scales IH]; intros modules Hle; simpl in *.
  - destruct modules; [| simpl in Hle; lia].
    destruct extra as [| [x f] extra]; reflexivity.
  - destruct modules as [| m modules]; [reflexivity|].
    simpl in Hle. rewrite IH by lia. reflexivity.
Qed.

(** X11.  [pnet_forward] returns as many outputs as there are scales or
    modules, whichever is fewer, and scales beyond the number of modules
    are ignored without an error. *)
Theorem pnet_forward_ignores_surplus_scales
        (self : PV_RCNN.t) (scales extra : list (tensor2 * tensor2))
        (keypoints : tensor3) :
  (length (pnets self) <= length scales)%nat ->
  pnet_forward self (scales ++ extra) keypoints
  = pnet_forward self scales keypoints
  /\ length (pnet_forward self (scales ++ extra) keypoints)
     = length (pnets self).
Proof.
  intros Hle. unfold pnet_forward.
  rewrite (pnet_forward_zip_surplus scales extra keypoints (pnets self) Hle).
  split; [reflexivity|].
  rewrite pnet_forward_zip_length. lia.
Qed.

Lemma split_3_1_rejects (points : tensor2) :
  Exists (fun row => length row <> 4%nat) points ->
  split_3_1 points = Err RuntimeError.
Proof.
  intros Hex. unfold split_3_1.
  destruct (forallb (fun row => Nat.eqb (length row) 4) points) eqn:E;
    [| reflexivity].
  exfalso. rewrite forallb_forall in E.
  apply Exists_exists in Hex. destruct Hex as [row [Hin Hlen]].
  apply Hlen. apply Nat.eqb_eq. apply E. exact Hin.
Qed.

(** X12.  A cloud in which some point does not have exactly four columns
    is refused by the forward pass with a RuntimeError (the split into
    three coordinates and one feature), whatever the collaborators
    return. *)
Theorem forward_requires_four_columns
        (self : PV_RCNN.t) (g : rng) (points : tensor2) :
  Exists (fun row => length row <> 4%nat) points ->
  fused_features lib self points = Err RuntimeError
  /\ forward lib self g points = Err RuntimeError.
Proof.
  intros Hex.
  assert (E : fused_features lib self points = Err RuntimeError).
  { unfold fused_features, voxelize.
    destruct (generate (voxel_generator self) points) as [[voxels coords] occ].
    destruct (cnn_forward (cnn self) (vfe self voxels occ)
                          (Numpy.pad2 coords 0 0 1 0 0%Z) 1) as [cnn_out vol].
    rewrite (split_3_1_rejects points Hex). reflexivity. }
  split; [exact E|]. unfold forward. rewrite E. reflexivity.
Qed.

(** X13.  A network that [__init__] has built from a configuration with
    an empty stride list fails in its forward pass with an IndexError on
    every cloud of at least [cfg.n_keypoints] four-column points: the
    stride list is first read when the BEV indices are computed. *)
Theorem forward_without_strides
        (c : PvrcnnConfig) (self : PV_RCNN.t) (g : rng) (points : tensor2) :
  init lib c = Ok self ->
  strides c = [] ->
  (n_keypoints c <= length points)%nat ->
  Forall (fun row => length row = 4%nat) points ->
  forward lib self g points = Err IndexError.
Proof.
  intros Ei Es Hk Hrows.
  destruct (init_fields lib c self Ei) as [_ [Ecfg Ebev]].
  rewrite <- Ecfg in Hk.
  destruct (sample_keypoints_enough self points Hk)
    as [indices [_ [_ [_ [_ Ek]]]]].
  unfold forward, fused_features, voxelize.
  destruct (generate (voxel_generator self) points) as [[voxels coords] occ].
  destruct (cnn_forward (cnn self) (vfe self voxels occ)
                        (Numpy.pad2 coords 0 0 1 0 0%Z) 1) as [cnn_out vol].
  rewrite (split_3_1_rows points Hrows). simpl.
  rewrite Ek. simpl.
  unfold BEV_FeatureGatherer.forward, BEV_FeatureGatherer.compute_bev_indices,
    BEV_FeatureGatherer.fractional_bev_indices.
  rewrite (last_stride_empty _ (eq_trans (f_equal strides Ebev) Es)).
  reflexivity.
Qed.

(** X15.  When the backbone returns a volume whose batch size is not one,
    the forward pass on a cloud of at least [cfg.n_keypoints] four-column
    points fails with a RuntimeError: the keypoints always form a unit
    batch. *)
Theorem forward_requires_unit_batch_volume
        (self : PV_RCNN.t) (g : rng) (points : tensor2)
        (voxels : tensor3) (coordinates : list (list Z)) (occupancy : list Z)
        (cnn_out : list (tensor2 * tensor2)) (volume : SparseConvTensor) :
  (n_keypoints (cfg self) <= length points)%nat ->
  Forall (fun row => length row = 4%nat) points ->
  generate (voxel_generator self) points = (voxels, coordinates, occupancy) ->
  cnn_forward (cnn self) (vfe self voxels occupancy)
              (Numpy.pad2 coordinates 0 0 1 0 0%Z) 1
  = (cnn_out, volume) ->
  length (dense volume) <> 1%nat ->
  strides (BEV_FeatureGatherer.cfg (bev_gatherer self)) <> [] ->
  forward lib self g points = Err RuntimeError.
Proof.
  intros Hk Hrows Eg Ec Hb Hs.
  destruct (sample_keypoints_enough self points Hk)
    as [indices [_ [_ [_ [_ Ek]]]]].
  destruct (BEV_FeatureGatherer.last_stride
              (BEV_FeatureGatherer.cfg (bev_gatherer self))) as [s | e] eqn:El.
  2:{ exfalso. unfold BEV_FeatureGatherer.last_stride in El.
      destruct (rev (strides (BEV_FeatureGatherer.cfg (bev_gatherer self))))
        as [| s l] eqn:Er; [| discriminate El].
      apply Hs. rewrite <- (rev_involutive (strides _)), Er. reflexivity. }
  unfold forward, fused_features, voxelize.
  rewrite Eg, Ec, (split_3_1_rows points Hrows). simpl.
  rewrite Ek. simpl.
  unfold BEV_FeatureGatherer.forward, BEV_FeatureGatherer.compute_bev_indices,
    BEV_FeatureGatherer.fractional_bev_indices.
  rewrite El. simpl. unfold grid_sample.
  replace (Nat.eqb _ _) with false; [reflexivity|].
  symmetry. apply Nat.eqb_neq.
  unfold view_merge_CD. rewrite length_map. simpl. exact Hb.
Qed.

End Forward_More.

Section Further_Properties.
Import Torch PV_RCNN.
Context {rng : Type}.
Variable lib : Library rng.
Local Open Scope Q_scope.

(** X16.  For an image of at least 3 x 3 pixels, an index (x, y) inside
    the image, 0 <= x <= H - 1 and 0 <= y <= W - 1, is normalised to
    (2 x / (H - 2) - 1, 2 y / (W - 2) - 1). *)
Theorem normalized_indices_inside (H W : nat) (x y : Q) :
  (3 <= H)%nat -> (3 <= W)%nat ->
  0 <= x -> x <= inject_Z (Z.of_nat H - 1) ->
  0 <= y -> y <= inject_Z (Z.of_nat W - 1) ->
  teq4 (BEV_FeatureGatherer.normalize_grid_sample_indices (one_index x y) H W)
       (one_index (2 * x / (inject_Z (Z.of_nat H) - 2) - 1)
                  (2 * y / (inject_Z (Z.of_nat W) - 2) - 1)).
Proof.
  intros HH HW Hx0 Hx1 Hy0 Hy1. rewrite normalize_one.
  pose proof (axis_divisor_positive H HH) as HdH.
  pose proof (axis_divisor_positive W HW) as HdW.
  rewrite inject_pred in HdH, HdW.
  apply teq4_one.
  - rewrite Q.max_r by exact Hx0. rewrite Q.min_l by exact Hx1.
    rewrite inject_pred. field. lra.
  - rewrite Q.max_r by exact Hy0. rewrite Q.min_l by exact Hy1.
    rewrite inject_pred. field. lra.
Qed.


End Further_Properties.

Section Further_Runs.
Import Torch Pointnet2 PV_RCNN.
Local Open Scope Q_scope.

Lemma build_pointnets_one_module_per_scale_witness :
  exists modules : list Pnet,
    build_pointnets Fixture.lib Fixture.cfg = Ok modules
    /\ length modules = 2%nat.
Proof.
  destruct (build_pointnets_one_module_per_scale Fixture.lib Fixture.cfg
              ltac:(simpl; lia) ltac:(simpl; lia))
    as [modules [Hb [Hl _]]].
  exists modules. split; [exact Hb | exact Hl].
Defined.

Lemma build_pointnets_short_config_witness :
  build_pointnets Fixture.lib Cases.cfg_short_radii = Err IndexError
  /\ init Fixture.lib Cases.cfg_short_radii = Err IndexError.
Proof.
  apply (build_pointnets_short_config Fixture.lib Cases.cfg_short_radii).
  left. simpl. lia.
Defined.

Lemma init_wires_the_collaborators_witness :
  BEV_FeatureGatherer.voxel_offset (bev_gatherer Fixture.model)
  = cnn_voxel_offset (cnn Fixture.model)
  /\ length (pnets Fixture.model) = length (mlps Fixture.cfg).
Proof.
  destruct (init_wires_the_collaborators Fixture.lib Fixture.cfg
              Fixture.model eq_refl)
    as [_ [_ [Ho [_ [_ [_ [_ [Hl _]]]]]]]].
  split; [exact Ho | exact Hl].
Defined.

Lemma normalized_indices_range_witness :
  index_rows
    (fun x y =>
       (-1 <= x /\ x <= inject_Z (Z.of_nat 6) / (inject_Z (Z.of_nat 6) - 2))
       /\ (-1 <= y /\ y <= inject_Z (Z.of_nat 4) / (inject_Z (Z.of_nat 4) - 2)))
    (BEV_FeatureGatherer.normalize_grid_sample_indices
       Cases.indices_anywhere 6 4).
Proof.
  apply (normalized_indices_range Cases.indices_anywhere 6 4).
  - lia.
  - lia.
  - repeat constructor; eexists; eexists; split; reflexivity || exact I.
Defined.

Lemma normalized_indices_saturate_witness :
  teq4 (BEV_FeatureGatherer.normalize_grid_sample_indices
          (one_index (-4) (-1)) 6 4)
       (one_index (-1) (-1))
  /\ teq4 (BEV_FeatureGatherer.normalize_grid_sample_indices
             (one_index 7 9) 6 4)
          (one_index
             (inject_Z (Z.of_nat 6) / (inject_Z (Z.of_nat 6) - 2))
             (inject_Z (Z.of_nat 4) / (inject_Z (Z.of_nat 4) - 2))).
Proof.
  split.
  - apply (proj1 (normalized_indices_saturate 6 4 (-4) (-1)
                    ltac:(lia) ltac:(lia)));
      intros E; discriminate E.
  - apply (proj2 (normalized_indices_saturate 6 4 7 9
                    ltac:(lia) ltac:(lia)));
      intros E; discriminate E.
Defined.

Lemma clamp_keeps_indices_inside_witness :
  teq4 (BEV_FeatureGatherer.clamp_indices Cases.indices_inside 6 4)
       Cases.indices_inside.
Proof.
  apply (clamp_keeps_indices_inside Cases.indices_inside 6 4).
  repeat constructor; eexists; eexists;
    (split; [reflexivity|]);
    repeat split; intros E; discriminate E.
Defined.

Lemma bev_gatherer_needs_a_stride_witness :
  BEV_FeatureGatherer.compute_bev_indices
    (bev_gatherer Cases.model_no_strides) Fixture.run_keypoints 3 3
  = Err IndexError
  /\ BEV_FeatureGatherer.forward Fixture.corner_interp
       (bev_gatherer Cases.model_no_strides)
       (dense Fixture.run_volume) Fixture.run_keypoints
     = Err IndexError.
Proof.
  apply (bev_gatherer_needs_a_stride Fixture.corner_interp
           (bev_gatherer Cases.model_no_strides)
           (dense Fixture.run_volume) Fixture.run_keypoints 3 3).
  reflexivity.
Defined.

Lemma bev_gatherer_reads_each_channel_witness :
  exists rows : tensor2,
    length rows = 2%nat
    /\ BEV_FeatureGatherer.forward Fixture.corner_interp Fixture.gatherer
         [Fixture.run_dense] Fixture.run_keypoints
       = Ok [map (fun image =>
                    map (fun xy => Fixture.corner_interp image
                                     (nth 0 xy 0) (nth 1 xy 0)) rows)
                 (concat Fixture.run_dense)].
Proof.
  destruct (bev_gatherer_reads_each_channel Fixture.corner_interp
              Fixture.gatherer Fixture.run_dense
              [[0; 0; 0]; [3; 1; 1]] ltac:(discriminate))
    as [rows [_ [Hl Hf]]].
  exists rows. split; [exact Hl | exact Hf].
Defined.

Lemma bev_gatherer_batch_mismatch_witness :
  BEV_FeatureGatherer.forward Fixture.corner_interp Fixture.gatherer
    (dense Fixture.run_volume ++ dense Fixture.run_volume)
    Fixture.run_keypoints
  = Err RuntimeError.
Proof.
  apply (bev_gatherer_batch_mismatch Fixture.corner_interp Fixture.gatherer
           (dense Fixture.run_volume ++ dense Fixture.run_volume)
           Fixture.run_keypoints).
  - discriminate.
  - simpl. lia.
Defined.

Lemma sample_keypoints_shape_witness :
  exists rows : tensor2,
    sample_keypoints Fixture.model Fixture.coincident_cloud = Ok [rows]
    /\ length rows = 2%nat
    /\ Forall (fun row => length row = 3%nat) rows.
Proof.
  destruct (sample_keypoints_shape Fixture.model Fixture.coincident_cloud
              ltac:(simpl; lia))
    as [rows [Hs [Hl [_ Hc]]]].
  exists rows. split; [exact Hs|]. split; [exact Hl|].
  apply Hc. repeat constructor.
Defined.

Lemma pnet_forward_ignores_surplus_scales_witness :
  pnet_forward Fixture.model
    (((map (firstn 3) Fixture.cloud, map (skipn 3) Fixture.cloud)
        :: Fixture.run_cnn_out) ++ [Cases.surplus_scale])
    Fixture.run_keypoints
  = pnet_forward Fixture.model
      ((map (firstn 3) Fixture.cloud, map (skipn 3) Fixture.cloud)
         :: Fixture.run_cnn_out)
      Fixture.run_keypoints
  /\ length (pnet_forward Fixture.model
               (((map (firstn 3) Fixture.cloud, map (skipn 3) Fixture.cloud)
                   :: Fixture.run_cnn_out) ++ [Cases.surplus_scale])
               Fixture.run_keypoints)
     = length (pnets Fixture.model).
Proof.
  apply (pnet_forward_ignores_surplus_scales Fixture.model
           ((map (firstn 3) Fixture.cloud, map (skipn 3) Fixture.cloud)
              :: Fixture.run_cnn_out)
           [Cases.surplus_scale] Fixture.run_keypoints).
  simpl. lia.
Defined.

Lemma forward_requires_four_columns_witness :
  fused_features Fixture.lib Fixture.model Cases.cloud_xyz_only
  = Err RuntimeError
  /\ forward Fixture.lib Fixture.model 1%Z Cases.cloud_xyz_only
     = Err RuntimeError.
Proof.
  apply (forward_requires_four_columns Fixture.lib Fixture.model 1%Z
           Cases.cloud_xyz_only).
  constructor. simpl. lia.
Defined.

Lemma forward_without_strides_witness :
  init Fixture.lib Cases.cfg_no_strides = Ok Cases.model_no_strides
  /\ forward Fixture.lib Cases.model_no_strides 1%Z Fixture.cloud
     = Err IndexError.
Proof.
  split; [reflexivity|].
  apply (forward_without_strides Fixture.lib Cases.cfg_no_strides
           Cases.model_no_strides 1%Z Fixture.cloud).
  - reflexivity.
  - reflexivity.
  - simpl. lia.
  - repeat constructor.
Defined.

Lemma forward_requires_unit_batch_volume_witness :
  forward Fixture.lib Cases.model_two_batches 1%Z Fixture.cloud
  = Err RuntimeError.
Proof.
  apply (forward_requires_unit_batch_volume Fixture.lib
           Cases.model_two_batches 1%Z Fixture.cloud
           Fixture.run_voxels Fixture.run_coordinates Fixture.run_occupancy
           [] {| dense := dense Fixture.run_volume ++ dense Fixture.run_volume |}).
  - simpl. lia.
  - repeat constructor.
  - reflexivity.
  - reflexivity.
  - simpl. lia.
  - discriminate.
Defined.

Lemma normalized_indices_inside_witness :
  teq4 (BEV_FeatureGatherer.normalize_grid_sample_indices
          (one_index (5 # 2) 1) 6 4)
       (one_index (2 * (5 # 2) / (inject_Z (Z.of_nat 6) - 2) - 1)
                  (2 * 1 / (inject_Z (Z.of_nat 4) - 2) - 1)).
Proof.
  apply (normalized_indices_inside 6 4 (5 # 2) 1);
    try lia; intros E; discriminate E.
Defined.


End Further_Runs.
